(** * Verification of the workflow tool handlers

    Shallow embedding of [src/tool-handlers/workflow-tools.ts]: the two
    helpers [handle_validation_error] and [format_output] and the seven
    asynchronous tool handlers, together with the small part of the
    JavaScript runtime they rely on (truthiness, string coercion,
    [String.prototype.includes], [toLowerCase], [JSON.stringify]). *)

From Stdlib Require Import String Ascii List Bool Arith ZArith Lia.
From Stdlib Require Import DecimalString.
Import ListNotations.
Local Open Scope list_scope.
Local Open Scope string_scope.

Set Implicit Arguments.
Set Warnings "-register-all".

(* ===================================================================== *)
(** * The JavaScript values the handlers observe *)
(* ===================================================================== *)

Module JS.

(** Plain data as it travels in tool arguments and API answers.  Strings
    are byte strings (UTF-8); numbers are restricted to integers, which
    is all the handlers ever print.  An object keeps its properties in
    insertion order, the order [JSON.stringify] follows. *)
Inductive value : Type :=
| VUndefined
| VNull
| VBool (b : bool)
| VNum (n : Z)
| VStr (s : string)
| VArr (items : list value)
| VObj (props : list (string * value)).

(** [ToBoolean]: what [!x], [x || y], [x && y] and [x ? a : b] test. *)
Definition truthy (v : value) : bool :=
  match v with
  | VUndefined | VNull => false
  | VBool b => b
  | VNum n => negb (Z.eqb n 0)
  | VStr s => negb (String.eqb s "")
  | VArr _ | VObj _ => true
  end.

(** [a || b] *)
Definition or_else (a b : value) : value := if truthy a then a else b.

(** Property read [o.k] on the properties of an object; a missing
    property is [undefined]. *)
Fixpoint lookup (k : string) (props : list (string * value)) : value :=
  match props with
  | [] => VUndefined
  | (k', v) :: rest => if String.eqb k k' then v else lookup k rest
  end.

(** The argument object of a tool invocation: an untyped field mapping. *)
Definition Args : Type := list (string * value).

(** [Array.prototype.join] *)
Fixpoint join (sep : string) (l : list string) : string :=
  match l with
  | [] => ""
  | [x] => x
  | x :: rest => x ++ sep ++ join sep rest
  end.

Definition string_of_nat (n : nat) : string :=
  NilZero.string_of_uint (Nat.to_uint n).

Definition string_of_Z (n : Z) : string :=
  NilZero.string_of_int (Z.to_int n).

(** [String(v)], which is also what a template literal applies to an
    interpolated value. *)
Fixpoint to_string (v : value) : string :=
  match v with
  | VUndefined => "undefined"
  | VNull => "null"
  | VBool true => "true"
  | VBool false => "false"
  | VNum n => string_of_Z n
  | VStr s => s
  | VArr items =>
      join "," (map (fun x => match x with
                              | VUndefined | VNull => ""
                              | _ => to_string x
                              end) items)
  | VObj _ => "[object Object]"
  end.

(** [s.startsWith(p)] *)
Fixpoint starts_with (s p : string) {struct p} : bool :=
  match p, s with
  | EmptyString, _ => true
  | String _ _, EmptyString => false
  | String c p', String d s' => Ascii.eqb c d && starts_with s' p'
  end.

(** [s.includes(needle)]: [needle] occurs at some position of [s]. *)
Fixpoint includes (s needle : string) : bool :=
  starts_with s needle
  || match s with
     | EmptyString => false
     | String _ s' => includes s' needle
     end.

(** [toLowerCase] on one byte: only A-Z change.  The characters outside
    ASCII whose lower case holds an ASCII letter are U+0130 (i followed
    by a combining dot) and U+212A (k), so no occurrence of the word
    searched for in this file appears or disappears when the bytes above
    127 are left alone. *)
Definition lower_ascii (c : ascii) : ascii :=
  let n := nat_of_ascii c in
  if (Nat.leb 65 n && Nat.leb n 90)%bool then ascii_of_nat (n + 32) else c.

Fixpoint toLowerCase (s : string) : string :=
  match s with
  | EmptyString => EmptyString
  | String c s' => String (lower_ascii c) (toLowerCase s')
  end.

(** ** [JSON.stringify(v, null, 2)] *)

Definition hex_digit (n : nat) : ascii :=
  if Nat.ltb n 10 then ascii_of_nat (48 + n) else ascii_of_nat (87 + n).

Definition nl : string := String (ascii_of_nat 10) EmptyString.

(** Escape of one character inside a JSON string literal. *)
Definition escape_char (c : ascii) : string :=
  let n := nat_of_ascii c in
  if Nat.eqb n 34 then "\" ++ String c EmptyString
  else if Nat.eqb n 92 then "\\"
  else if Nat.eqb n 8 then "\b"
  else if Nat.eqb n 9 then "\t"
  else if Nat.eqb n 10 then "\n"
  else if Nat.eqb n 12 then "\f"
  else if Nat.eqb n 13 then "\r"
  else if Nat.ltb n 32 then
    "\u00" ++ String (hex_digit (n / 16)) (String (hex_digit (n mod 16)) EmptyString)
  else String c EmptyString.

Fixpoint escape (s : string) : string :=
  match s with
  | EmptyString => EmptyString
  | String c s' => escape_char c ++ escape s'
  end.

Definition quote (s : string) : string :=
  String (ascii_of_nat 34) (escape s) ++ String (ascii_of_nat 34) EmptyString.

(** [stringify indent v] is the text of [v] when the enclosing line is
    already indented by [indent]; [None] is JavaScript's [undefined],
    the answer for a value that has no JSON text. *)
Fixpoint stringify (indent : string) (v : value) : option string :=
  match v with
  | VUndefined => None
  | VNull => Some "null"
  | VBool true => Some "true"
  | VBool false => Some "false"
  | VNum n => Some (string_of_Z n)
  | VStr s => Some (quote s)
  | VArr items =>
      let inner := indent ++ "  " in
      let texts :=
        map (fun x => match stringify inner x with
                      | Some t => t
                      | None => "null"
                      end) items in
      match texts with
      | [] => Some "[]"
      | _ => Some ("[" ++ nl ++ inner ++ join ("," ++ nl ++ inner) texts
                       ++ nl ++ indent ++ "]")
      end
  | VObj props =>
      let inner := indent ++ "  " in
      let texts :=
        flat_map (fun kv => match stringify inner (snd kv) with
                            | Some t => [quote (fst kv) ++ ": " ++ t]
                            | None => []
                            end) props in
      match texts with
      | [] => Some "{}"
      | _ => Some ("{" ++ nl ++ inner ++ join ("," ++ nl ++ inner) texts
                       ++ nl ++ indent ++ "}")
      end
  end.

(** The value of [JSON.stringify(v, null, 2)] once it is concatenated to
    a string: [undefined] is coerced to the text "undefined". *)
Definition JSON_stringify (v : value) : string :=
  match stringify "" v with
  | Some t => t
  | None => "undefined"
  end.

End JS.

Import JS.

(* ===================================================================== *)
(** * Data model *)
(* ===================================================================== *)

Record Tag := { tag_name : string }.

(** A node of a workflow; [node_type_id] is its [type] property. *)
Record Node := { node_type_id : string }.

(** A workflow as the API Client returns it.  [wf_json] is the object
    itself, with every property it carries, which is what the handlers
    hand to [JSON.stringify]; the other fields are the properties the
    handlers read from it. *)
Record Workflow := {
  wf_id : string;
  wf_name : string;
  wf_active : bool;
  wf_created_at : string;
  wf_updated_at : string;
  wf_nodes : list Node;
  wf_tags : option (list Tag);
  wf_json : value
}.

(** A workflow payload that went through the schema. *)
Record WorkflowInput := {
  in_name : string;
  in_nodes : list Node;
  in_connections : value
}.

(** The parsed envelope of [create_workflow]. *)
Record CreateWorkflowInput := {
  workflow : WorkflowInput;
  activate : option bool
}.

(** What the node validator reports for a node type it does not know. *)
Record InvalidNode := {
  node_type : string;
  suggestion : option string
}.

Record ContentItem := { type : string; text : string }.

Record ToolResponse := {
  content : list ContentItem;
  isError : option bool
}.

(* ===================================================================== *)
(** * Thrown values *)
(* ===================================================================== *)

(** What a [catch] clause can receive.  A promise may reject with any
    value: [ThrownNullish] is [undefined] or [null], on which every
    property read raises a TypeError; any other value is seen through
    the observations the handlers make of it: [error.name] (a string, or
    anything else read as absent), [error.message] (any value) and
    [String(error)]. *)
Inductive Thrown :=
| ThrownNullish
| ThrownValue (name : option string) (message : value) (text : string).

(** The error of the API Client contract: an object that exposes a
    message string, or lacks one and is then coerced to a string. *)
Record JsError := {
  err_name : option string;
  err_message : option string;
  err_string : string
}.

(** A contract error as a thrown value. *)
Definition thrown (e : JsError) : Thrown :=
  ThrownValue (err_name e)
              (match err_message e with
               | Some m => VStr m
               | None => VUndefined
               end)
              (err_string e).

Coercion thrown : JsError >-> Thrown.

Inductive ErrorCode := ParseError | InvalidRequest | MethodNotFound
                     | InvalidParams | InternalError.

(** The protocol fault of the MCP SDK. *)
Inductive McpError := mkMcpError (code : ErrorCode) (msg : string).

(** What can leave a handler instead of a response: the protocol fault
    it throws itself, or a TypeError of the runtime. *)
Inductive Exception :=
| Fault (fault : McpError)
| TypeError.

Coercion Fault : McpError >-> Exception.

(** Sequencing of evaluations that may raise. *)
Notation "'let?' x ':=' r 'in' k" :=
  (match r with inl e => inl e | inr x => k end)
  (at level 10, x name, r at level 100, k at level 200).

(** [error.message] *)
Definition message_of (error : Thrown) : Exception + value :=
  match error with
  | ThrownNullish => inl TypeError
  | ThrownValue _ message _ => inr message
  end.

(** [error.name] *)
Definition name_of (error : Thrown) : Exception + option string :=
  match error with
  | ThrownNullish => inl TypeError
  | ThrownValue name _ _ => inr name
  end.

(** [String(error)]; the handlers never reach it on [undefined] or
    [null], where the read of the message before it has raised. *)
Definition String_of (error : Thrown) : string :=
  match error with
  | ThrownNullish => "undefined"
  | ThrownValue _ _ text => text
  end.

(** [a || b] for [a] a string or [undefined] and [b] a string. *)
Definition str_or (a : option string) (b : string) : string :=
  match a with
  | Some s => if String.eqb s "" then b else s
  | None => b
  end.

(** Truthiness of a string-or-[undefined] property. *)
Definition str_truthy (a : option string) : bool :=
  match a with
  | Some s => negb (String.eqb s "")
  | None => false
  end.

(** [error.message || String(error)] *)
Definition error_text (error : JsError) : string :=
  str_or (err_message error) (err_string error).

(* ===================================================================== *)
(** * External collaborators *)
(* ===================================================================== *)

(** [WORKFLOW_COMPOSITION_GUIDE]: static advice text, looked up verbatim. *)
Record Guide := {
  node_categories : string;
  common_patterns : string;
  core_principles : string;
  workflow_creation_process : string
}.

(** [config] *)
Record Config := { output_verbosity : string }.

(** The calls a handler can make on the API Client. *)
Inductive ApiCall :=
| ListWorkflows (args : value)
| CreateWorkflow (w : WorkflowInput) (act : option bool)
| GetWorkflow (id : value)
| UpdateWorkflow (id : value) (w : WorkflowInput)
| DeleteWorkflow (id : value)
| ActivateWorkflow (id : value)
| DeactivateWorkflow (id : value).

(** One awaited call in the history of a handler run, and whether the
    promise was fulfilled. *)
Record Event := { ev_call : ApiCall; ev_ok : bool }.

Section Collaborators.

(** State of everything behind the awaited calls (the remote backend,
    the validator's registry cache). *)
Variable S : Type.

(** An awaited call either fulfils with a value or rejects with a
    thrown value, and may change the state behind it. *)
Definition Remote (A : Type) : Type := S -> (Thrown + A) * S.

Record N8nApiClient := {
  list_workflows : value -> Remote (option (list Workflow));
  create_workflow : WorkflowInput -> option bool -> Remote Workflow;
  get_workflow : value -> Remote Workflow;
  update_workflow : value -> WorkflowInput -> Remote Workflow;
  delete_workflow : value -> Remote value;
  activate_workflow : value -> Remote Workflow;
  deactivate_workflow : value -> Remote Workflow
}.

Record Env := {
  config : Config;
  WORKFLOW_COMPOSITION_GUIDE : Guide;
  (** [CreateWorkflowInputSchema.parse] and [WorkflowSchema.parse]:
      return the parsed value or throw. *)
  CreateWorkflowInputSchema_parse : value -> Thrown + CreateWorkflowInput;
  WorkflowSchema_parse : value -> Thrown + WorkflowInput;
  (** [node_validator.validate_workflow_nodes] *)
  validate_workflow_nodes : list Node -> Remote (list InvalidNode);
  (** [new Date(x).toLocaleString()], which depends on the host locale. *)
  toLocaleString : string -> string
}.

End Collaborators.

(* ===================================================================== *)
(** * Asynchronous computations *)
(* ===================================================================== *)

(** The result type of each API Client method. *)
Definition answer (c : ApiCall) : Type :=
  match c with
  | ListWorkflows _ => option (list Workflow)
  | DeleteWorkflow _ => value
  | _ => Workflow
  end.

Definition is_fulfilled {E A : Type} (r : E + A) : bool :=
  match r with inr _ => true | inl _ => false end.

Section Async.

Variable S : Type.

(** An [async] body run from a state: it returns or throws, leaves a
    state behind and a history of the API Client calls it awaited, in
    order.  [E] is the type of what it can throw. *)
Definition Async (E A : Type) : Type := S -> (E + A) * S * list Event.

Definition ret {E A : Type} (a : A) : Async E A :=
  fun s => (inr a, s, []).

Definition throw {E A : Type} (e : E) : Async E A :=
  fun s => (inl e, s, []).

Definition bind {E A B : Type} (m : Async E A) (k : A -> Async E B)
  : Async E B :=
  fun s =>
    match m s with
    | (inl e, s1, h1) => (inl e, s1, h1)
    | (inr a, s1, h1) =>
        match k a s1 with
        | (r, s2, h2) => (r, s2, (h1 ++ h2)%list)
        end
    end.

(** [try { body } catch (error) { handler }] *)
Definition try_catch {E E' A : Type}
           (body : Async E A) (handler : E -> Async E' A) : Async E' A :=
  fun s =>
    match body s with
    | (inr a, s1, h1) => (inr a, s1, h1)
    | (inl e, s1, h1) =>
        match handler e s1 with
        | (r, s2, h2) => (r, s2, (h1 ++ h2)%list)
        end
    end.

(** A synchronous call that returns or throws. *)
Definition sync {E A : Type} (r : E + A) : Async E A :=
  fun s => (r, s, []).

(** [await] on a collaborator that is not the API Client. *)
Definition settle {A : Type} (m : Remote S A) : Async Thrown A :=
  fun s => match m s with (r, s1) => (r, s1, []) end.

Variable api_client : N8nApiClient S.

Definition perform (c : ApiCall) : Remote S (answer c) :=
  match c with
  | ListWorkflows args => list_workflows api_client args
  | CreateWorkflow w act => create_workflow api_client w act
  | GetWorkflow id => get_workflow api_client id
  | UpdateWorkflow id w => update_workflow api_client id w
  | DeleteWorkflow id => delete_workflow api_client id
  | ActivateWorkflow id => activate_workflow api_client id
  | DeactivateWorkflow id => deactivate_workflow api_client id
  end.

(** [await api_client.method(...)]: the call enters the history. *)
Definition await (c : ApiCall) : Async Thrown (answer c) :=
  fun s =>
    match perform c s with
    | (r, s1) => (r, s1, [{| ev_call := c; ev_ok := is_fulfilled r |}])
    end.

End Async.

Arguments ret {S E A} a.
Arguments throw {S E A} e.
Arguments sync {S E A} r.

Notation "x <- c ;; k" := (bind c (fun x => k))
  (at level 61, c at next level, right associativity).

(* ===================================================================== *)
(** * The helpers *)
(* ===================================================================== *)

Definition dq : string := String (ascii_of_nat 34) EmptyString.

(** Interpolation of a string-or-[undefined] property in a template. *)
Definition opt_text (a : option string) : string :=
  match a with Some s => s | None => "undefined" end.

(** [a === s] for [a] a string or [undefined]. *)
Definition opt_is (a : option string) (s : string) : bool :=
  match a with Some t => String.eqb t s | None => false end.

(** [v === s] for any value [v]. *)
Definition is_str (v : value) (s : string) : bool :=
  match v with VStr t => String.eqb t s | _ => false end.

(** [v.includes(needle)]: the method of strings and of arrays; on any
    other value there is no such function to call. *)
Definition call_includes (v : value) (needle : string) : Exception + bool :=
  match v with
  | VStr s => inr (includes s needle)
  | VArr items => inr (existsb (fun item => is_str item needle) items)
  | _ => inl TypeError
  end.

Definition handle_validation_error (guide : Guide) (error : Thrown)
  : Exception + ToolResponse :=
  let? message := message_of error in
  let error_message := or_else message (VStr "Validation error") in
  let? guidance :=
    (let? has_nodes := call_includes error_message "nodes" in
     if has_nodes then inr (node_categories guide) else
     let? has_connections := call_includes error_message "connections" in
     if has_connections then inr (common_patterns guide) else
     let? has_trigger := call_includes error_message "trigger" in
     if has_trigger then inr (core_principles guide)
     else inr (workflow_creation_process guide)) in
  inr {| content :=
           [ {| type := "text";
                text := "Validation error: " ++ to_string error_message
                        ++ nl ++ nl
                        ++ "Here's some guidance that might help:" ++ nl ++ nl
                        ++ guidance |} ];
         isError := Some true |}.

Definition format_output (cfg : Config)
           (summary : string) (details : value) (verbosity : value) : string :=
  let output_verbosity := or_else verbosity (VStr (output_verbosity cfg)) in
  if is_str output_verbosity "full" then
    summary ++ nl ++ nl ++ "Full details:" ++ nl ++ JSON_stringify details
  else
    summary.

(* ===================================================================== *)
(** * The tool handlers *)
(* ===================================================================== *)

(** [l.map((x, index) => f x index)] *)
Fixpoint mapi_from {A B : Type} (i : nat) (f : A -> nat -> B) (l : list A)
  : list B :=
  match l with
  | [] => []
  | x :: rest => f x i :: mapi_from (1 + i) f rest
  end.

Definition mapi {A B : Type} (f : A -> nat -> B) (l : list A) : list B :=
  mapi_from 0 f l.

(** [tags?.map(tag => tag.name).join(', ') || 'None'] *)
Definition tags_text (tags : option (list Tag)) : string :=
  str_or (option_map (fun ts => join ", " (map tag_name ts)) tags) "None".

Section Handlers.

Variable S : Type.
Variable api_client : N8nApiClient S.
Variable env : Env S.

Let guide := WORKFLOW_COMPOSITION_GUIDE env.

(** A handler returns a response, or an exception leaves it. *)
Definition Handler : Type := Async S Exception ToolResponse.

(** The catch-all clause: the line [prefix] followed by
    [error.message || String(error)]. *)
Definition report (prefix : string) (error : Thrown) : Handler :=
  message <- sync (message_of error) ;;
  ret {| content :=
           [ {| type := "text";
                text := prefix
                        ++ to_string (or_else message
                                              (VStr (String_of error))) |} ];
         isError := Some true |}.

Definition handle_list_workflows (args : Args) : Handler :=
  try_catch
    (workflows <- await api_client (ListWorkflows (VObj args)) ;;
     match workflows with
     | None | Some [] =>
         ret {| content := [ {| type := "text";
                                text := "No workflows found." |} ];
                isError := None |}
     | Some workflows =>
         let active_count := length (filter wf_active workflows) in
         let inactive_count := length workflows - active_count in
         let summary :=
           "Found " ++ string_of_nat (length workflows) ++ " workflow"
           ++ (if negb (Nat.eqb (length workflows) 1) then "s" else "")
           ++ " (" ++ string_of_nat active_count ++ " active, "
           ++ string_of_nat inactive_count ++ " inactive):" ++ nl ++ nl in
         let workflow_list :=
           join (nl ++ nl)
             (mapi (fun wf index =>
                      let status :=
                        if wf_active wf then "Active" else "Inactive" in
                      let tags := tags_text (wf_tags wf) in
                      string_of_nat (index + 1) ++ ". " ++ dq ++ wf_name wf
                      ++ dq ++ " (ID: " ++ wf_id wf ++ ")" ++ nl
                      ++ "   Status: " ++ status ++ nl
                      ++ "   Created: "
                      ++ toLocaleString env (wf_created_at wf) ++ nl
                      ++ "   Tags: " ++ tags)
                   workflows) in
         ret {| content :=
                  [ {| type := "text";
                       text := format_output (config env)
                                 (summary ++ workflow_list)
                                 (VArr (map wf_json workflows))
                                 (lookup "verbosity" args) |} ];
                isError := None |}
     end)
    (fun error => report "Error listing workflows: " error).

(** The itemised line for one invalid node. *)
Definition invalid_node_line (node : InvalidNode) : string :=
  let suggestion_text :=
    if str_truthy (suggestion node)
    then "Did you mean '" ++ opt_text (suggestion node) ++ "'?"
    else "No similar nodes found." in
  "- '" ++ node_type node ++ "': Not a valid n8n node. " ++ suggestion_text.

Definition handle_create_workflow (args : Args) : Handler :=
  try_catch
    (parsed_input <- sync (CreateWorkflowInputSchema_parse env (VObj args)) ;;
     invalid_nodes <-
       settle (validate_workflow_nodes env
                 (in_nodes (workflow parsed_input))) ;;
     if Nat.ltb 0 (length invalid_nodes) then
       let error_messages := map invalid_node_line invalid_nodes in
       ret {| content :=
                [ {| type := "text";
                     text := "Workflow contains invalid node types:" ++ nl
                             ++ join nl error_messages ++ nl ++ nl
                             ++ "Please correct these node types before creating the workflow."
                             ++ nl ++ nl
                             ++ "Here are the available node categories for reference:"
                             ++ nl ++ node_categories guide |} ];
              isError := Some true |}
     else
       created <- await api_client
                    (CreateWorkflow (workflow parsed_input)
                                    (activate parsed_input)) ;;
       let activation_status :=
         if wf_active created then "activated"
         else "created (not activated)" in
       ret {| content :=
                [ {| type := "text";
                     text := "Successfully " ++ activation_status
                             ++ " workflow " ++ dq ++ wf_name created ++ dq
                             ++ " (ID: " ++ wf_id created ++ ")" |} ];
              isError := None |})
    (fun error =>
       name <- sync (name_of error) ;;
       if opt_is name "ZodError" then
         sync (handle_validation_error guide error)
       else
         report "Error creating workflow: " error).

Definition handle_get_workflow (args : Args) : Handler :=
  if negb (truthy (lookup "id" args)) then
    throw (Fault (mkMcpError InvalidParams "Workflow ID is required"))
  else
    try_catch
      (fetched <- await api_client (GetWorkflow (lookup "id" args)) ;;
       let activation_status :=
         if wf_active fetched then "Active" else "Inactive" in
       let node_count := length (wf_nodes fetched) in
       let trigger_nodes :=
         length (filter (fun node =>
                           includes (toLowerCase (node_type_id node))
                                    "trigger")
                        (wf_nodes fetched)) in
       let summary :=
         "Workflow: " ++ dq ++ wf_name fetched ++ dq
         ++ " (ID: " ++ to_string (lookup "id" args) ++ ")" ++ nl
         ++ "Status: " ++ activation_status ++ nl
         ++ "Created: " ++ toLocaleString env (wf_created_at fetched) ++ nl
         ++ "Updated: " ++ toLocaleString env (wf_updated_at fetched) ++ nl
         ++ "Nodes: " ++ string_of_nat node_count ++ " (including "
         ++ string_of_nat trigger_nodes ++ " trigger nodes)" ++ nl
         ++ "Tags: " ++ tags_text (wf_tags fetched) in
       ret {| content :=
                [ {| type := "text";
                     text := format_output (config env) summary
                               (wf_json fetched)
                               (lookup "verbosity" args) |} ];
              isError := None |})
      (fun error => report "Error retrieving workflow: " error).

Definition handle_update_workflow (args : Args) : Handler :=
  if negb (truthy (lookup "id" args)) || negb (truthy (lookup "workflow" args)) then
    throw (Fault (mkMcpError InvalidParams
                      "Workflow ID and updated workflow data are required"))
  else
    try_catch
      (parsed_workflow <-
         sync (WorkflowSchema_parse env (lookup "workflow" args)) ;;
       invalid_nodes <-
         settle (validate_workflow_nodes env (in_nodes parsed_workflow)) ;;
       if Nat.ltb 0 (length invalid_nodes) then
         let error_messages := map invalid_node_line invalid_nodes in
         ret {| content :=
                  [ {| type := "text";
                       text := "Workflow contains invalid node types:" ++ nl
                               ++ join nl error_messages ++ nl ++ nl
                               ++ "Please correct these node types before updating the workflow."
                               ++ nl ++ nl
                               ++ "Here are the available node categories for reference:"
                               ++ nl ++ node_categories guide |} ];
                isError := Some true |}
       else
         updated <- await api_client
                      (UpdateWorkflow (lookup "id" args) parsed_workflow) ;;
         let activation_status :=
           if wf_active updated then "active" else "inactive" in
         ret {| content :=
                  [ {| type := "text";
                       text := "Successfully updated workflow " ++ dq
                               ++ wf_name updated ++ dq ++ " (ID: "
                               ++ to_string (lookup "id" args) ++ ", Status: "
                               ++ activation_status ++ ")" |} ];
                isError := None |})
      (fun error =>
         name <- sync (name_of error) ;;
         if opt_is name "ZodError" then
           sync (handle_validation_error guide error)
         else
           report "Error updating workflow: " error).

Definition handle_delete_workflow (args : Args) : Handler :=
  if negb (truthy (lookup "id" args)) then
    throw (Fault (mkMcpError InvalidParams "Workflow ID is required"))
  else
    try_catch
      (fetched <- await api_client (GetWorkflow (lookup "id" args)) ;;
       result <- await api_client (DeleteWorkflow (lookup "id" args)) ;;
       ret {| content :=
                [ {| type := "text";
                     text := "Successfully deleted workflow " ++ dq
                             ++ wf_name fetched ++ dq ++ " (ID: "
                             ++ to_string (lookup "id" args) ++ ")" |} ];
              isError := None |})
      (fun error => report "Error deleting workflow: " error).

Definition handle_activate_workflow (args : Args) : Handler :=
  if negb (truthy (lookup "id" args)) then
    throw (Fault (mkMcpError InvalidParams "Workflow ID is required"))
  else
    try_catch
      (result <- await api_client (ActivateWorkflow (lookup "id" args)) ;;
       ret {| content :=
                [ {| type := "text";
                     text := "Successfully activated workflow " ++ dq
                             ++ wf_name result ++ dq ++ " (ID: "
                             ++ to_string (lookup "id" args) ++ ")" |} ];
              isError := None |})
      (fun error =>
         message <- sync (message_of error) ;;
         mentions <- sync (if truthy message
                           then call_includes message "trigger"
                           else inr false) ;;
         if mentions then
           let core := core_principles guide in
           ret {| content :=
                    [ {| type := "text";
                         text := "Error activating workflow: "
                                 ++ to_string message ++ nl ++ nl
                                 ++ "Note: Only workflows with automatic trigger nodes (Schedule, Webhook, etc.) can be activated. "
                                 ++ "Workflows with only manual triggers cannot be automatically activated."
                                 ++ nl ++ nl
                                 ++ "Here are some core principles for workflow composition:"
                                 ++ nl ++ core |} ];
                  isError := Some true |}
         else
           report "Error activating workflow: " error).

Definition handle_deactivate_workflow (args : Args) : Handler :=
  if negb (truthy (lookup "id" args)) then
    throw (Fault (mkMcpError InvalidParams "Workflow ID is required"))
  else
    try_catch
      (result <- await api_client (DeactivateWorkflow (lookup "id" args)) ;;
       ret {| content :=
                [ {| type := "text";
                     text := "Successfully deactivated workflow " ++ dq
                             ++ wf_name result ++ dq ++ " (ID: "
                             ++ to_string (lookup "id" args) ++ ")" |} ];
              isError := None |})
      (fun error => report "Error deactivating workflow: " error).

End Handlers.

(* ===================================================================== *)
(** * The seven tools as one family *)
(* ===================================================================== *)

Inductive Tool :=
| list_tool | create_tool | get_tool | update_tool
| delete_tool | activate_tool | deactivate_tool.

Definition handler_of (S : Type) (api_client : N8nApiClient S) (env : Env S)
           (t : Tool) : Args -> Handler S :=
  match t with
  | list_tool => handle_list_workflows api_client env
  | create_tool => handle_create_workflow api_client env
  | get_tool => handle_get_workflow api_client env
  | update_tool => handle_update_workflow api_client env
  | delete_tool => handle_delete_workflow api_client
  | activate_tool => handle_activate_workflow api_client env
  | deactivate_tool => handle_deactivate_workflow api_client
  end.

(** The required-argument precondition of each tool, as the table of
    handlers gives it: [id] for get, delete, activate and deactivate,
    [id] and [workflow] for update, nothing for list and create. *)
Definition required_present (t : Tool) (args : Args) : bool :=
  match t with
  | list_tool | create_tool => true
  | update_tool =>
      truthy (lookup "id" args) && truthy (lookup "workflow" args)
  | get_tool | delete_tool | activate_tool | deactivate_tool =>
      truthy (lookup "id" args)
  end.

(** The API Client method that carries out what the caller of a tool
    asked for. *)
Definition principal (t : Tool) (c : ApiCall) : bool :=
  match t, c with
  | list_tool, ListWorkflows _
  | create_tool, CreateWorkflow _ _
  | get_tool, GetWorkflow _
  | update_tool, UpdateWorkflow _ _
  | delete_tool, DeleteWorkflow _
  | activate_tool, ActivateWorkflow _
  | deactivate_tool, DeactivateWorkflow _ => true
  | _, _ => false
  end.

(** The operation completed as requested: the history of the run holds a
    fulfilled call of the tool's own API Client method. *)
Definition completed (t : Tool) (history : list Event) : bool :=
  existsb (fun ev => principal t (ev_call ev) && ev_ok ev) history.

(** Some call of the history satisfies [p]. *)
Definition invoked (p : ApiCall -> bool) (history : list Event) : bool :=
  existsb (fun ev => p (ev_call ev)) history.

Definition is_create (c : ApiCall) : bool :=
  match c with CreateWorkflow _ _ => true | _ => false end.

Definition is_update (c : ApiCall) : bool :=
  match c with UpdateWorkflow _ _ => true | _ => false end.


(** ** Reference readings of the counting and selection rules *)

(** Number of workflows whose [active] flag is set. *)
Fixpoint count_active (wfs : list Workflow) : nat :=
  match wfs with
  | [] => 0
  | wf :: rest => (if wf_active wf then 1 else 0) + count_active rest
  end.

(** A node counts as a trigger when its type identifier, case-folded,
    contains the substring "trigger". *)
Definition is_trigger (n : Node) : bool :=
  includes (toLowerCase (node_type_id n)) "trigger".

Fixpoint count_triggers (ns : list Node) : nat :=
  match ns with
  | [] => 0
  | n :: rest => (if is_trigger n then 1 else 0) + count_triggers rest
  end.

(** The guidance selector as an ordered table of (keyword, section)
    pairs, first match wins, with a default. *)
Definition guidance_table (guide : Guide) : list (string * string) :=
  [ ("nodes", node_categories guide);
    ("connections", common_patterns guide);
    ("trigger", core_principles guide) ].

Fixpoint first_match (message : string) (table : list (string * string))
         (default : string) : string :=
  match table with
  | [] => default
  | (keyword, section) :: rest =>
      if includes message keyword then section
      else first_match message rest default
  end.

Definition select_guidance (guide : Guide) (message : string) : string :=
  first_match message (guidance_table guide) (workflow_creation_process guide).

(** The envelope of an error response. *)
Definition error_response (t : string) : ToolResponse :=
  {| content := [ {| type := "text"; text := t |} ]; isError := Some true |}.

(** The envelope of a success response: no [isError] field. *)
Definition success_response (t : string) : ToolResponse :=
  {| content := [ {| type := "text"; text := t |} ]; isError := None |}.

(** The only text item of a response. *)
Definition text_of (r : ToolResponse) : string :=
  match content r with
  | [ item ] => text item
  | _ => ""
  end.

(* ===================================================================== *)
(** * A concrete backend to run the handlers on *)
(* ===================================================================== *)

Module Demo.

(** The remote state: the stored workflows. *)
Definition Store : Type := list Workflow.

Definition plain_error (m : string) : JsError :=
  {| err_name := Some "Error"; err_message := Some m;
     err_string := "Error: " ++ m |}.

Definition zod_error (m : string) : JsError :=
  {| err_name := Some "ZodError"; err_message := Some m;
     err_string := "ZodError: " ++ m |}.

Definition has_id (id : value) (wf : Workflow) : bool :=
  String.eqb (wf_id wf) (to_string id).

(** The object the demo backend answers with: the properties the
    handlers read and, as every n8n workflow has them, the connections. *)
Definition as_object (id name : string) (active : bool)
           (created updated : string) (nodes : list Node)
           (tags : option (list Tag)) : value :=
  VObj [ ("id", VStr id);
         ("name", VStr name);
         ("active", VBool active);
         ("nodes",
          VArr (map (fun n => VObj [ ("type", VStr (node_type_id n));
                                     ("parameters", VObj []) ]) nodes));
         ("connections", VObj []);
         ("created_at", VStr created);
         ("updated_at", VStr updated);
         ("tags", match tags with
                  | Some ts =>
                      VArr (map (fun t => VObj [ ("name", VStr (tag_name t)) ])
                                ts)
                  | None => VUndefined
                  end) ].

Definition make (id name : string) (active : bool)
           (created updated : string) (nodes : list Node)
           (tags : option (list Tag)) : Workflow :=
  {| wf_id := id; wf_name := name; wf_active := active;
     wf_created_at := created; wf_updated_at := updated;
     wf_nodes := nodes; wf_tags := tags;
     wf_json := as_object id name active created updated nodes tags |}.

Definition set_active (b : bool) (wf : Workflow) : Workflow :=
  make (wf_id wf) (wf_name wf) b (wf_created_at wf) (wf_updated_at wf)
       (wf_nodes wf) (wf_tags wf).

Definition replace (id : value) (new : Workflow) (st : Store) : Store :=
  map (fun wf => if has_id id wf then new else wf) st.

Definition with_found {A : Type} (id : value)
           (k : Workflow -> Store -> (Thrown + A) * Store)
  : Remote Store A :=
  fun st =>
    match find (has_id id) st with
    | Some wf => k wf st
    | None => (inl (thrown (plain_error "Request failed with status code 404")), st)
    end.

Definition store_workflow (id : string) (w : WorkflowInput) (act : bool)
  : Workflow :=
  make id (in_name w) act "2024-01-01T00:00:00.000Z"
       "2024-01-01T00:00:00.000Z" (in_nodes w) None.

Definition client : N8nApiClient Store :=
  {| list_workflows := fun _ st => (inr (Some st), st);
     create_workflow := fun w act st =>
       let wf := store_workflow (string_of_nat (1 + length st)) w
                   (match act with Some b => b | None => false end) in
       (inr wf, (st ++ [wf])%list);
     get_workflow := fun id => with_found id (fun wf st => (inr wf, st));
     update_workflow := fun id w =>
       with_found id (fun wf st =>
         let wf' := store_workflow (wf_id wf) w (wf_active wf) in
         (inr wf', replace id wf' st));
     delete_workflow := fun id =>
       with_found id (fun wf st =>
         (inr VUndefined, filter (fun x => negb (has_id id x)) st));
     activate_workflow := fun id =>
       with_found id (fun wf st =>
         if Nat.ltb 0 (count_triggers (wf_nodes wf)) then
           (inr (set_active true wf), replace id (set_active true wf) st)
         else (inl (thrown (plain_error "Workflow has no trigger node")), st));
     deactivate_workflow := fun id =>
       with_found id (fun wf st =>
         (inr (set_active false wf), replace id (set_active false wf) st))
  |}.

(** A schema that wants a [name] string and a [nodes] array of objects
    with a [type] string. *)
Fixpoint parse_nodes (items : list value) : option (list Node) :=
  match items with
  | [] => Some []
  | VObj props :: rest =>
      match lookup "type" props, parse_nodes rest with
      | VStr t, Some ns => Some ({| node_type_id := t |} :: ns)
      | _, _ => None
      end
  | _ :: _ => None
  end.

Definition parse_workflow (v : value) : Thrown + WorkflowInput :=
  match v with
  | VObj props =>
      match lookup "name" props, lookup "nodes" props with
      | VStr n, VArr items =>
          match parse_nodes items with
          | Some ns =>
              inr {| in_name := n; in_nodes := ns;
                     in_connections := lookup "connections" props |}
          | None => inl (thrown (zod_error "Invalid input: nodes must have a type"))
          end
      | _, _ => inl (thrown (zod_error "Required: name and nodes"))
      end
  | _ => inl (thrown (zod_error "Expected object, received something else"))
  end.

Definition parse_create (v : value) : Thrown + CreateWorkflowInput :=
  match v with
  | VObj props =>
      match parse_workflow (lookup "workflow" props) with
      | inr w =>
          inr {| workflow := w;
                 activate := match lookup "activate" props with
                             | VBool b => Some b
                             | _ => None
                             end |}
      | inl e => inl e
      end
  | _ => inl (thrown (zod_error "Expected object, received something else"))
  end.

Definition registry : list string :=
  [ "Set"; "ScheduleTrigger"; "Webhook"; "HttpRequest" ].

Definition known (t : string) : bool :=
  existsb (String.eqb t) registry.

Definition suggest (t : string) : option string :=
  find (fun k => String.eqb (toLowerCase k) (toLowerCase t)) registry.

Definition validate (nodes : list Node) : Remote Store (list InvalidNode) :=
  fun st =>
    (inr (map (fun n => {| node_type := node_type_id n;
                           suggestion := suggest (node_type_id n) |})
              (filter (fun n => negb (known (node_type_id n))) nodes)),
     st).

Definition guide : Guide :=
  {| node_categories := "NODE CATEGORIES";
     common_patterns := "COMMON PATTERNS";
     core_principles := "CORE PRINCIPLES";
     workflow_creation_process := "WORKFLOW CREATION PROCESS" |}.

Definition env (verbosity : string) : Env Store :=
  {| config := {| output_verbosity := verbosity |};
     WORKFLOW_COMPOSITION_GUIDE := guide;
     CreateWorkflowInputSchema_parse := parse_create;
     WorkflowSchema_parse := parse_workflow;
     validate_workflow_nodes := validate;
     toLocaleString := fun iso => iso |}.

Definition sample (id : string) (act : bool) (types : list string)
  : Workflow :=
  make id ("wf-" ++ id) act "2024-01-01T00:00:00.000Z"
       "2024-01-02T00:00:00.000Z"
       (map (fun t => {| node_type_id := t |}) types)
       (Some [ {| tag_name := "demo" |} ]).

Definition store3 : Store :=
  [ sample "a" true ["ScheduleTrigger"; "Set"];
    sample "b" false ["Set"];
    sample "c" false ["ManualTrigger"] ].

(** A backend whose key may read but not write. *)
Definition forbidden {A : Type} : Remote Store A :=
  fun st => (inl (thrown (plain_error "Request failed with status code 403")), st).

Definition read_only : N8nApiClient Store :=
  {| list_workflows := list_workflows client;
     create_workflow := fun _ _ => forbidden;
     get_workflow := get_workflow client;
     update_workflow := fun _ _ => forbidden;
     delete_workflow := fun _ => forbidden;
     activate_workflow := fun _ => forbidden;
     deactivate_workflow := fun _ => forbidden |}.

(** What [throw text] leaves in a [catch] clause: no name, no message. *)
Definition thrown_string (text : string) : JsError :=
  {| err_name := None; err_message := None; err_string := text |}.

(** A client every call of which rejects with [e]. *)
Definition rejecting (e : Thrown) : N8nApiClient Store :=
  {| list_workflows := fun _ st => (inl e, st);
     create_workflow := fun _ _ st => (inl e, st);
     get_workflow := fun _ st => (inl e, st);
     update_workflow := fun _ _ st => (inl e, st);
     delete_workflow := fun _ st => (inl e, st);
     activate_workflow := fun _ st => (inl e, st);
     deactivate_workflow := fun _ st => (inl e, st) |}.

(** An environment whose node validator cannot reach its registry. *)
Definition env_offline : Env Store :=
  {| config := {| output_verbosity := "concise" |};
     WORKFLOW_COMPOSITION_GUIDE := guide;
     CreateWorkflowInputSchema_parse := parse_create;
     WorkflowSchema_parse := parse_workflow;
     validate_workflow_nodes :=
       fun _ st => (inl (thrown (plain_error "connect ECONNREFUSED")), st);
     toLocaleString := fun iso => iso |}.

(** Arguments with a payload the schema and the registry accept. *)
Definition good_payload : value :=
  VObj [ ("name", VStr "demo");
         ("nodes", VArr [ VObj [ ("type", VStr "Webhook") ];
                          VObj [ ("type", VStr "Set") ] ]) ].

Definition good_input : WorkflowInput :=
  {| in_name := "demo";
     in_nodes := [ {| node_type_id := "Webhook" |};
                   {| node_type_id := "Set" |} ];
     in_connections := VUndefined |}.

(** A workflow with two tags and no nodes. *)
Definition tagged : Workflow :=
  make "a" "tagged" false "2024-01-01T00:00:00.000Z"
       "2024-01-01T00:00:00.000Z" []
       (Some [ {| tag_name := "prod" |}; {| tag_name := "billing" |} ]).

End Demo.

(* ===================================================================== *)
(** * Texts and predicates the properties are stated with *)
(* ===================================================================== *)

(** The history entry of one awaited call. *)
Definition called (c : ApiCall) (ok : bool) : Event :=
  {| ev_call := c; ev_ok := ok |}.

(** [new McpError(ErrorCode.InvalidParams, m)] *)
Definition invalid_params (m : string) : McpError :=
  mkMcpError InvalidParams m.

(** The history of API Client calls of a run. *)
Definition history_of {S A : Type} (run : A * S * list Event) : list Event :=
  snd run.

(** The labelled block appended in full mode. *)
Definition full_details (details : value) : string :=
  nl ++ nl ++ "Full details:" ++ nl ++ JSON_stringify details.

(** The message the guidance is chosen from: [error.message], or the
    fallback when the error has none. *)
Definition validation_message (error : JsError) : string :=
  str_or (err_message error) "Validation error".

(** The first line of the list_workflows text. *)
Definition list_summary (wfs : list Workflow) : string :=
  "Found " ++ string_of_nat (length wfs) ++ " workflow"
  ++ (if negb (Nat.eqb (length wfs) 1) then "s" else "")
  ++ " (" ++ string_of_nat (length (filter wf_active wfs)) ++ " active, "
  ++ string_of_nat (length wfs - length (filter wf_active wfs))
  ++ " inactive):" ++ nl ++ nl.

(** The block of one workflow in the list_workflows text. *)
Definition list_entry (to_locale : string -> string)
           (wf : Workflow) (index : nat) : string :=
  string_of_nat (index + 1) ++ ". " ++ dq ++ wf_name wf ++ dq
  ++ " (ID: " ++ wf_id wf ++ ")" ++ nl
  ++ "   Status: " ++ (if wf_active wf then "Active" else "Inactive") ++ nl
  ++ "   Created: " ++ to_locale (wf_created_at wf) ++ nl
  ++ "   Tags: " ++ tags_text (wf_tags wf).

(** The summary of get_workflow. *)
Definition get_summary (to_locale : string -> string)
           (id : value) (wf : Workflow) : string :=
  "Workflow: " ++ dq ++ wf_name wf ++ dq
  ++ " (ID: " ++ to_string id ++ ")" ++ nl
  ++ "Status: " ++ (if wf_active wf then "Active" else "Inactive") ++ nl
  ++ "Created: " ++ to_locale (wf_created_at wf) ++ nl
  ++ "Updated: " ++ to_locale (wf_updated_at wf) ++ nl
  ++ "Nodes: " ++ string_of_nat (length (wf_nodes wf)) ++ " (including "
  ++ string_of_nat
       (length (filter (fun node =>
                          includes (toLowerCase (node_type_id node)) "trigger")
                       (wf_nodes wf)))
  ++ " trigger nodes)" ++ nl
  ++ "Tags: " ++ tags_text (wf_tags wf).

(** The report of invalid node types, for create ([verb] creating) and
    update ([verb] updating). *)
Definition invalid_nodes_text (verb : string) (guide : Guide)
           (invalid : list InvalidNode) : string :=
  "Workflow contains invalid node types:" ++ nl
  ++ join nl (map invalid_node_line invalid) ++ nl ++ nl
  ++ "Please correct these node types before " ++ verb ++ " the workflow."
  ++ nl ++ nl
  ++ "Here are the available node categories for reference:"
  ++ nl ++ node_categories guide.

(** The guidance response for an error of the contract, whose message
    is a string or absent. *)
Definition validation_guidance (guide : Guide) (error : JsError)
  : ToolResponse :=
  let error_message := str_or (err_message error) "Validation error" in
  let guidance :=
    if includes error_message "nodes" then node_categories guide
    else if includes error_message "connections" then common_patterns guide
    else if includes error_message "trigger" then core_principles guide
    else workflow_creation_process guide in
  error_response
    ("Validation error: " ++ error_message ++ nl ++ nl
     ++ "Here's some guidance that might help:" ++ nl ++ nl ++ guidance).

(** The [catch] clause shared by create and update, on an error of the
    contract. *)
Definition validation_or_generic (prefix : string) (guide : Guide)
           (error : JsError) : ToolResponse :=
  if opt_is (err_name error) "ZodError"
  then validation_guidance guide error
  else error_response (prefix ++ error_text error).

(** The catch-all clause on any thrown value: a response, or the
    TypeError of reading a property of [undefined] or [null]. *)
Definition reported (prefix : string) (error : Thrown)
  : Exception + ToolResponse :=
  let? message := message_of error in
  inr (error_response
         (prefix ++ to_string (or_else message (VStr (String_of error))))).

(** The [catch] clause shared by create and update on any thrown value. *)
Definition recovered (prefix : string) (guide : Guide) (error : Thrown)
  : Exception + ToolResponse :=
  let? name := name_of error in
  if opt_is name "ZodError" then handle_validation_error guide error
  else reported prefix error.

(** The fixed explanation attached to activation errors about triggers. *)
Definition activation_note : string :=
  "Note: Only workflows with automatic trigger nodes (Schedule, Webhook, etc.) can be activated. "
  ++ "Workflows with only manual triggers cannot be automatically activated.".

(** [error.message && error.message.includes('trigger')] *)
Definition mentions_trigger (error : JsError) : bool :=
  str_truthy (err_message error)
  && includes (opt_text (err_message error)) "trigger".

(** The [catch] clause of activate_workflow. *)
Definition activation_failure (guide : Guide) (error : JsError)
  : ToolResponse :=
  if mentions_trigger error then
    error_response
      ("Error activating workflow: " ++ opt_text (err_message error)
       ++ nl ++ nl ++ activation_note ++ nl ++ nl
       ++ "Here are some core principles for workflow composition:"
       ++ nl ++ core_principles guide)
  else error_response ("Error activating workflow: " ++ error_text error).

(** The [catch] clause of activate_workflow on any thrown value. *)
Definition activation_recovered (guide : Guide) (error : Thrown)
  : Exception + ToolResponse :=
  let? message := message_of error in
  let? mentions := (if truthy message then call_includes message "trigger"
                    else inr false) in
  if mentions then
    inr (error_response
           ("Error activating workflow: " ++ to_string message
            ++ nl ++ nl ++ activation_note ++ nl ++ nl
            ++ "Here are some core principles for workflow composition:"
            ++ nl ++ core_principles guide))
  else reported "Error activating workflow: " error.

(** A thrown value that is an error of the API Client contract. *)
Definition contract_error (t : Thrown) : Prop :=
  exists e : JsError, t = thrown e.

(** The collaborators keep the contract: whatever the API Client or the
    node validator rejects with, and whatever a schema throws, is an
    error that exposes a message string or none. *)
Definition conforming (S : Type) (api_client : N8nApiClient S)
           (env : Env S) : Prop :=
  (forall c s t s1, perform api_client c s = (inl t, s1) -> contract_error t)
  /\ (forall nodes s t s1,
        validate_workflow_nodes env nodes s = (inl t, s1) ->
        contract_error t)
  /\ (forall v t,
        CreateWorkflowInputSchema_parse env v = inl t -> contract_error t)
  /\ (forall v t, WorkflowSchema_parse env v = inl t -> contract_error t).

(** What a tool invocation did to the backend: whether the requested
    operation was carried out, the state left, the calls made. *)
Record Effect (S : Type) := {
  done : bool;
  final : S;
  calls : list Event
}.

(** One call on the API Client. *)
Definition attempt (S : Type) (api_client : N8nApiClient S)
           (c : ApiCall) (s : S) : Effect S :=
  match perform api_client c s with
  | (r, s1) => {| done := is_fulfilled r; final := s1;
                  calls := [ {| ev_call := c; ev_ok := is_fulfilled r |} ] |}
  end.

(** No call at all. *)
Definition untouched (S : Type) (s : S) : Effect S :=
  {| done := false; final := s; calls := [] |}.

(** One call after the other, the second only if the first was
    fulfilled. *)
Definition and_then (S : Type) (first : Effect S) (next : S -> Effect S)
  : Effect S :=
  if done first then
    let second := next (final first) in
    {| done := done second; final := final second;
       calls := (calls first ++ calls second)%list |}
  else first.

(** The operation each tool stands for, read off the table of handlers:
    list, get, activate and deactivate are one call of the method of the
    same name; delete fetches the workflow, then deletes it; create and
    update parse the payload, have the node validator check its nodes,
    and call the API Client only when it reports none invalid. *)
Definition backend_effect (S : Type) (api_client : N8nApiClient S)
           (env : Env S) (t : Tool) (args : Args) (s : S) : Effect S :=
  let id := lookup "id" args in
  let validated (nodes : list Node) (call : ApiCall) : Effect S :=
    match validate_workflow_nodes env nodes s with
    | (inr [], s1) => attempt api_client call s1
    | (_, s1) => untouched s1
    end in
  match t with
  | list_tool => attempt api_client (ListWorkflows (VObj args)) s
  | get_tool => attempt api_client (GetWorkflow id) s
  | activate_tool => attempt api_client (ActivateWorkflow id) s
  | deactivate_tool => attempt api_client (DeactivateWorkflow id) s
  | delete_tool =>
      and_then (attempt api_client (GetWorkflow id) s)
               (attempt api_client (DeleteWorkflow id))
  | create_tool =>
      match CreateWorkflowInputSchema_parse env (VObj args) with
      | inr input =>
          validated (in_nodes (workflow input))
                    (CreateWorkflow (workflow input) (activate input))
      | inl _ => untouched s
      end
  | update_tool =>
      match WorkflowSchema_parse env (lookup "workflow" args) with
      | inr payload =>
          validated (in_nodes payload) (UpdateWorkflow id payload)
      | inl _ => untouched s
      end
  end.

(** Sample arguments: payloads with node types the registry of [Demo]
    does not know, and one that fails the schema. *)
Definition two_bad_nodes : Args :=
  [ ("workflow",
     VObj [ ("name", VStr "demo");
            ("nodes", VArr [ VObj [ ("type", VStr "webhook") ];
                             VObj [ ("type", VStr "Set") ];
                             VObj [ ("type", VStr "Frobnicate") ] ]) ]) ].

Definition update_bad_nodes : Args :=
  [ ("id", VStr "a");
    ("workflow",
     VObj [ ("name", VStr "demo");
            ("nodes", VArr [ VObj [ ("type", VStr "Frobnicate") ] ]) ]) ].

Definition update_bad_schema : Args :=
  [ ("id", VStr "a"); ("workflow", VObj [ ("name", VStr "demo") ]) ].

(** ** Vocabulary for the histories and the texts of all handlers *)

(** The calls that change the remote state. *)
Definition mutates (c : ApiCall) : bool :=
  match c with
  | ListWorkflows _ | GetWorkflow _ => false
  | _ => true
  end.

(** The calls a tool may make on behalf of an invocation with [args]:
    its own method, addressed with the caller's id (or, for list, the
    whole argument object; for create and update, what the schema made
    of the payload), and for delete also the fetch of that id. *)
Definition may_call (S : Type) (env : Env S) (t : Tool) (args : Args)
           (c : ApiCall) : Prop :=
  match t, c with
  | list_tool, ListWorkflows a => a = VObj args
  | create_tool, CreateWorkflow w act =>
      CreateWorkflowInputSchema_parse env (VObj args)
      = inr {| workflow := w; activate := act |}
  | get_tool, GetWorkflow id => id = lookup "id" args
  | update_tool, UpdateWorkflow id w =>
      id = lookup "id" args
      /\ WorkflowSchema_parse env (lookup "workflow" args) = inr w
  | delete_tool, GetWorkflow id => id = lookup "id" args
  | delete_tool, DeleteWorkflow id => id = lookup "id" args
  | activate_tool, ActivateWorkflow id => id = lookup "id" args
  | deactivate_tool, DeactivateWorkflow id => id = lookup "id" args
  | _, _ => False
  end.

(** No call follows a rejected one. *)
Fixpoint stops_at_failure (history : list Event) : bool :=
  match history with
  | [] => true
  | [ _ ] => true
  | ev :: rest => ev_ok ev && stops_at_failure rest
  end.

(** How the text of an error response of each tool can begin. *)
Definition error_prefixes (t : Tool) : list string :=
  match t with
  | list_tool => [ "Error listing workflows: " ]
  | create_tool =>
      [ "Error creating workflow: "; "Validation error: ";
        "Workflow contains invalid node types:" ]
  | get_tool => [ "Error retrieving workflow: " ]
  | update_tool =>
      [ "Error updating workflow: "; "Validation error: ";
        "Workflow contains invalid node types:" ]
  | delete_tool => [ "Error deleting workflow: " ]
  | activate_tool => [ "Error activating workflow: " ]
  | deactivate_tool => [ "Error deactivating workflow: " ]
  end.

(** How the text of a success response of each tool can begin. *)
Definition success_prefixes (t : Tool) : list string :=
  match t with
  | list_tool => [ "No workflows found."; "Found " ]
  | create_tool =>
      [ "Successfully activated workflow ";
        "Successfully created (not activated) workflow " ]
  | get_tool => [ "Workflow: " ]
  | update_tool => [ "Successfully updated workflow " ]
  | delete_tool => [ "Successfully deleted workflow " ]
  | activate_tool => [ "Successfully activated workflow " ]
  | deactivate_tool => [ "Successfully deactivated workflow " ]
  end.

(** The properties of the argument object a tool reads by name. *)
Definition reads (t : Tool) : list string :=
  match t with
  | get_tool => [ "id"; "verbosity" ]
  | update_tool => [ "id"; "workflow" ]
  | delete_tool | activate_tool | deactivate_tool => [ "id" ]
  | list_tool | create_tool => []
  end.

(** Tools that hand the whole argument object on. *)
Definition forwards_args (t : Tool) : bool :=
  match t with
  | list_tool | create_tool => true
  | _ => false
  end.

(* ===================================================================== *)
(** * Facts about strings *)
(* ===================================================================== *)

Section StringFacts.

Lemma append_assoc (a b c : string) : (a ++ b) ++ c = a ++ (b ++ c).
Proof.
  induction a as [| x a IH]; simpl; [reflexivity | now rewrite IH].
Qed.

Lemma append_empty_r (a : string) : a ++ "" = a.
Proof.
  induction a as [| x a IH]; simpl; [reflexivity | now rewrite IH].
Qed.

Lemma starts_with_append (p rest : string) :
  starts_with (p ++ rest) p = true.
Proof.
  induction p as [| c p IH]; simpl.
  - reflexivity.
  - now rewrite Ascii.eqb_refl, IH.
Qed.

Lemma starts_with_split (s p : string) :
  starts_with s p = true -> exists rest, s = p ++ rest.
Proof.
  revert s. induction p as [| c p IH]; intros s H.
  - exists s. reflexivity.
  - destruct s as [| d s]; simpl in H; [discriminate |].
    apply andb_true_iff in H. destruct H as [Hc Hs].
    apply Ascii.eqb_eq in Hc. subst d.
    destruct (IH s Hs) as [rest ->].
    exists rest. reflexivity.
Qed.

Lemma includes_here (needle rest : string) :
  includes (needle ++ rest) needle = true.
Proof.
  destruct needle as [| c n]; [destruct rest; reflexivity |].
  change (starts_with (String c n ++ rest) (String c n)
          || includes (n ++ rest) (String c n) = true).
  now rewrite starts_with_append.
Qed.

Lemma includes_self (needle : string) : includes needle needle = true.
Proof.
  rewrite <- (append_empty_r needle) at 1. apply includes_here.
Qed.

Lemma includes_skip (a s needle : string) :
  includes s needle = true -> includes (a ++ s) needle = true.
Proof.
  intros H. induction a as [| x a IH]; simpl; [exact H |].
  rewrite IH. apply orb_true_r.
Qed.

Lemma includes_extend (s b needle : string) :
  includes s needle = true -> includes (s ++ b) needle = true.
Proof.
  induction s as [| x s IH]; intros H.
  - destruct needle; simpl in H; [| discriminate].
    destruct b; reflexivity.
  - simpl in H. apply orb_true_iff in H. destruct H as [H | H].
    + apply starts_with_split in H. destruct H as [rest H].
      rewrite H, append_assoc. apply includes_here.
    + change (starts_with (String x s ++ b) needle
              || includes (s ++ b) needle = true).
      rewrite (IH H). apply orb_true_r.
Qed.

(** [includes] is the substring relation. *)
Lemma includes_spec (s needle : string) :
  includes s needle = true <-> exists a b, s = a ++ needle ++ b.
Proof.
  split.
  - induction s as [| x s IH]; intros H.
    + destruct needle; simpl in H; [| discriminate].
      exists "", "". reflexivity.
    + simpl in H. apply orb_true_iff in H. destruct H as [H | H].
      * apply starts_with_split in H. destruct H as [rest H].
        exists "", rest. exact H.
      * destruct (IH H) as (a & b & ->).
        exists (String x a), b. reflexivity.
  - intros (a & b & ->). apply includes_skip, includes_here.
Qed.

End StringFacts.

(** Finds [needle] as one of the pieces of a right-nested concatenation. *)
Ltac find_piece :=
  repeat first
    [ apply includes_self
    | apply includes_here
    | apply includes_skip ].

(* ===================================================================== *)
(** * The response formatter *)
(* ===================================================================== *)

Lemma format_output_cases (cfg : Config) (summary : string)
      (details verbosity : value) :
  format_output cfg summary details verbosity
  = if is_str (or_else verbosity (VStr (output_verbosity cfg))) "full"
    then summary ++ full_details details
    else summary.
Proof. reflexivity. Qed.

Lemma is_str_true (v : value) (s : string) :
  is_str v s = true <-> v = VStr s.
Proof.
  destruct v; simpl; try (split; [discriminate | congruence]).
  rewrite String.eqb_eq. split; congruence.
Qed.

(** The formatted text always starts with the summary. *)
Lemma format_output_starts (cfg : Config) (summary : string)
      (details verbosity : value) :
  exists suffix,
    format_output cfg summary details verbosity = summary ++ suffix.
Proof.
  rewrite format_output_cases.
  destruct (is_str _ "full").
  - now exists (full_details details).
  - exists "". now rewrite append_empty_r.
Qed.

(** Two-space indentation, one more level per nesting depth. *)
Example stringify_indent_example :
  JSON_stringify (VObj [ ("id", VNum 7);
                         ("nodes", VArr [ VObj [ ("type", VStr "Set") ] ]);
                         ("tags", VUndefined) ])
  = "{" ++ nl
    ++ "  " ++ dq ++ "id" ++ dq ++ ": 7," ++ nl
    ++ "  " ++ dq ++ "nodes" ++ dq ++ ": [" ++ nl
    ++ "    {" ++ nl
    ++ "      " ++ dq ++ "type" ++ dq ++ ": " ++ dq ++ "Set" ++ dq ++ nl
    ++ "    }" ++ nl
    ++ "  ]" ++ nl
    ++ "}".
Proof. reflexivity. Qed.

(** C2, as stated, fails: an explicitly supplied verbosity that is the
    empty string does not override a configured default of full, so the
    output is not the bare summary although the supplied value is not
    the word full. *)
Lemma format_output_explicit_empty_not_concise :
  VStr "" <> VUndefined
  /\ VStr "" <> VStr "full"
  /\ format_output {| output_verbosity := "full" |} "3 workflows" (VNum 1)
       (VStr "")
     <> "3 workflows".
Proof.
  repeat split; discriminate.
Qed.

(** C2 (amended): a verbosity argument that is supplied and truthy (any
    non-empty string in particular) overrides the configured default,
    whatever that default is; an omitted or falsy argument leaves the
    configured default in force.  When the effective verbosity is the
    string full, the result is the summary followed by the labelled
    full-details block holding the details as 2-space-indented JSON; for
    every other effective verbosity the result is the summary exactly.
    The result depends on nothing but the four inputs. *)
Theorem format_output_effective_verbosity
        (cfg : Config) (summary : string) (details verbosity : value) :
  let effective :=
    if truthy verbosity then verbosity else VStr (output_verbosity cfg) in
  (truthy verbosity = true ->
   forall cfg',
     format_output cfg' summary details verbosity
     = format_output cfg summary details verbosity)
  /\ (truthy verbosity = false ->
      format_output cfg summary details verbosity
      = format_output cfg summary details VUndefined)
  /\ (effective = VStr "full" ->
      format_output cfg summary details verbosity
      = summary ++ nl ++ nl ++ "Full details:" ++ nl
        ++ JSON_stringify details)
  /\ (effective <> VStr "full" ->
      format_output cfg summary details verbosity = summary).
Proof.
  cbv zeta. repeat split.
  - intros Ht cfg'. rewrite !format_output_cases. unfold or_else.
    now rewrite Ht.
  - intros Hf. rewrite !format_output_cases. unfold or_else.
    now rewrite Hf.
  - intros He. rewrite format_output_cases. unfold or_else.
    rewrite He. reflexivity.
  - intros He. rewrite format_output_cases. unfold or_else.
    destruct (is_str _ "full") eqn:Hs; [| reflexivity].
    apply is_str_true in Hs. contradiction.
Qed.

Lemma format_output_effective_verbosity_witness :
  (forall cfg',
     format_output cfg' "s" (VNum 1) (VStr "full")
     = format_output {| output_verbosity := "concise" |} "s" (VNum 1)
         (VStr "full"))
  /\ format_output {| output_verbosity := "full" |} "s" (VNum 1) VNull
     = format_output {| output_verbosity := "full" |} "s" (VNum 1) VUndefined
  /\ format_output {| output_verbosity := "concise" |} "s" (VNum 1)
       (VStr "full")
     = "s" ++ nl ++ nl ++ "Full details:" ++ nl ++ JSON_stringify (VNum 1)
  /\ format_output {| output_verbosity := "full" |} "s" (VNum 1)
       (VStr "verbose")
     = "s".
Proof.
  split; [| split; [| split]].
  - apply (format_output_effective_verbosity
             {| output_verbosity := "concise" |} "s" (VNum 1) (VStr "full")).
    reflexivity.
  - apply (format_output_effective_verbosity
             {| output_verbosity := "full" |} "s" (VNum 1) VNull).
    reflexivity.
  - apply (format_output_effective_verbosity
             {| output_verbosity := "concise" |} "s" (VNum 1) (VStr "full")).
    reflexivity.
  - apply (format_output_effective_verbosity
             {| output_verbosity := "full" |} "s" (VNum 1) (VStr "verbose")).
    simpl. discriminate.
Defined.

(** C9: an empty-string verbosity argument behaves exactly as an omitted
    one, for every configured default; under a configured default of
    full it therefore yields the full output, not the bare summary. *)
Theorem format_output_empty_string_as_omitted
        (cfg : Config) (summary : string) (details : value) :
  format_output cfg summary details (VStr "")
  = format_output cfg summary details VUndefined
  /\ format_output {| output_verbosity := "full" |} summary details (VStr "")
     = summary ++ nl ++ nl ++ "Full details:" ++ nl
       ++ JSON_stringify details.
Proof.
  split; reflexivity.
Qed.

(* ===================================================================== *)
(** * Validation error guidance *)
(* ===================================================================== *)

Lemma str_or_some (s b : string) : s <> "" -> str_or (Some s) b = s.
Proof.
  intros H. unfold str_or.
  destruct (String.eqb_spec s ""); [contradiction | reflexivity].
Qed.

(** On an error of the contract, [error.message || fallback] is the
    message when it is a non-empty string and the fallback otherwise. *)
Lemma contract_message_or (e : JsError) (fallback : string) :
  or_else (match err_message e with
           | Some m => VStr m
           | None => VUndefined
           end) (VStr fallback)
  = VStr (str_or (err_message e) fallback).
Proof.
  unfold or_else, str_or. destruct (err_message e) as [m |]; [| reflexivity].
  cbn [truthy]. destruct (String.eqb m ""); reflexivity.
Qed.

(** On an error of the contract the helper does not raise: it returns
    the guidance response. *)
Lemma handle_validation_error_thrown (guide : Guide) (e : JsError) :
  handle_validation_error guide (thrown e) = inr (validation_guidance guide e).
Proof.
  unfold handle_validation_error, validation_guidance, thrown, message_of.
  rewrite contract_message_or. cbn [call_includes to_string].
  destruct (includes _ "nodes"); [reflexivity |].
  destruct (includes _ "connections"); [reflexivity |].
  destruct (includes _ "trigger"); reflexivity.
Qed.

(** The nested conditionals of the source are the first-match selector. *)
Lemma validation_guidance_select (guide : Guide) (error : JsError) :
  validation_guidance guide error
  = error_response
      ("Validation error: " ++ validation_message error ++ nl ++ nl
       ++ "Here's some guidance that might help:" ++ nl ++ nl
       ++ select_guidance guide (validation_message error)).
Proof.
  unfold validation_guidance, select_guidance, validation_message.
  simpl first_match.
  destruct (includes _ "nodes"); [reflexivity |].
  destruct (includes _ "connections"); [reflexivity |].
  destruct (includes _ "trigger"); reflexivity.
Qed.

Lemma reported_thrown (prefix : string) (e : JsError) :
  reported prefix (thrown e) = inr (error_response (prefix ++ error_text e)).
Proof.
  unfold reported, thrown, message_of, String_of, error_text.
  now rewrite contract_message_or.
Qed.

Lemma recovered_thrown (prefix : string) (guide : Guide) (e : JsError) :
  recovered prefix guide (thrown e)
  = inr (validation_or_generic prefix guide e).
Proof.
  unfold recovered, validation_or_generic.
  cbn [name_of thrown].
  destruct (opt_is (err_name e) "ZodError").
  - apply (handle_validation_error_thrown guide e).
  - apply (reported_thrown prefix e).
Qed.

Lemma activation_recovered_thrown (guide : Guide) (e : JsError) :
  activation_recovered guide (thrown e) = inr (activation_failure guide e).
Proof.
  unfold activation_recovered, activation_failure, mentions_trigger.
  rewrite reported_thrown. unfold thrown. cbn [message_of].
  destruct (err_message e) as [m |]; [| reflexivity].
  cbn [truthy str_truthy opt_text call_includes to_string].
  destruct (String.eqb m ""); cbn [negb andb]; [reflexivity |].
  destruct (includes m "trigger"); reflexivity.
Qed.

(** Rewrites the catch clauses met on errors of the contract. *)
Ltac contract_catch :=
  rewrite ?reported_thrown, ?recovered_thrown, ?activation_recovered_thrown.

(** C3, as stated, fails: an error value named ZodError whose message is
    the number 42 makes the helper raise a TypeError (a number has no
    includes method) instead of returning a response; so does the value
    undefined, on which the message cannot even be read. *)
Lemma handle_validation_error_raises_on_odd_message :
  handle_validation_error
    {| node_categories := "N"; common_patterns := "C";
       core_principles := "P"; workflow_creation_process := "W" |}
    (ThrownValue (Some "ZodError") (VNum 42) "ZodError: 42")
  = inl TypeError
  /\ handle_validation_error
       {| node_categories := "N"; common_patterns := "C";
          core_principles := "P"; workflow_creation_process := "W" |}
       ThrownNullish
     = inl TypeError.
Proof.
  split; reflexivity.
Qed.

(** C3 (amended): for every error value whose message is a string or
    absent, as that of every Zod validation error is,
    [handle_validation_error] returns an error response (isError true)
    whose text is the prefix "Validation error: " with the message, then
    the guidance introduction and exactly one guidance section, chosen
    by the first keyword the message contains in the order nodes,
    connections, trigger, with the workflow creation process as default;
    an error without a message is reported with the literal fallback
    "Validation error". *)
Theorem handle_validation_error_first_match
        (guide : Guide) (error : JsError) :
  let message := validation_message error in
  let guidance := select_guidance guide message in
  handle_validation_error guide (thrown error)
  = inr {| content :=
             [ {| type := "text";
                  text := "Validation error: " ++ message ++ nl ++ nl
                          ++ "Here's some guidance that might help:"
                          ++ nl ++ nl ++ guidance |} ];
           isError := Some true |}
  /\ (includes message "nodes" = true -> guidance = node_categories guide)
  /\ (includes message "nodes" = false ->
      includes message "connections" = true ->
      guidance = common_patterns guide)
  /\ (includes message "nodes" = false ->
      includes message "connections" = false ->
      includes message "trigger" = true ->
      guidance = core_principles guide)
  /\ (includes message "nodes" = false ->
      includes message "connections" = false ->
      includes message "trigger" = false ->
      guidance = workflow_creation_process guide)
  /\ (forall m, err_message error = Some m -> m <> "" -> message = m)
  /\ (err_message error = None ->
      message = "Validation error"
      /\ guidance = workflow_creation_process guide).
Proof.
  cbv zeta. split.
  { rewrite handle_validation_error_thrown, validation_guidance_select.
    reflexivity. }
  unfold select_guidance. simpl first_match.
  repeat split.
  - intros ->. reflexivity.
  - intros -> ->. reflexivity.
  - intros -> -> ->. reflexivity.
  - intros -> -> ->. reflexivity.
  - intros m Hm Hne. unfold validation_message. rewrite Hm.
    now apply str_or_some.
  - unfold validation_message. now rewrite H.
  - unfold validation_message. rewrite H. reflexivity.
Qed.

Lemma handle_validation_error_first_match_witness :
  select_guidance Demo.guide "Invalid nodes and connections"
  = "NODE CATEGORIES"
  /\ select_guidance Demo.guide "Bad connections near trigger"
     = "COMMON PATTERNS"
  /\ select_guidance Demo.guide "No trigger present" = "CORE PRINCIPLES"
  /\ select_guidance Demo.guide "Required: name" = "WORKFLOW CREATION PROCESS"
  /\ validation_message (Demo.zod_error "Required: name") = "Required: name"
  /\ validation_message
       {| err_name := Some "ZodError"; err_message := None;
          err_string := "ZodError" |}
     = "Validation error".
Proof.
  split; [| split; [| split; [| split; [| split]]]].
  - destruct (handle_validation_error_first_match Demo.guide
                (Demo.zod_error "Invalid nodes and connections"))
      as (_ & H & _).
    apply H. reflexivity.
  - destruct (handle_validation_error_first_match Demo.guide
                (Demo.zod_error "Bad connections near trigger"))
      as (_ & _ & H & _).
    apply H; reflexivity.
  - destruct (handle_validation_error_first_match Demo.guide
                (Demo.zod_error "No trigger present"))
      as (_ & _ & _ & H & _).
    apply H; reflexivity.
  - destruct (handle_validation_error_first_match Demo.guide
                (Demo.zod_error "Required: name"))
      as (_ & _ & _ & _ & H & _).
    apply H; reflexivity.
  - destruct (handle_validation_error_first_match Demo.guide
                (Demo.zod_error "Required: name"))
      as (_ & _ & _ & _ & _ & H & _).
    apply H; [reflexivity | discriminate].
  - destruct (handle_validation_error_first_match Demo.guide
                {| err_name := Some "ZodError"; err_message := None;
                   err_string := "ZodError" |})
      as (_ & _ & _ & _ & _ & _ & H).
    apply H. reflexivity.
Defined.

(* ===================================================================== *)
(** * How each handler runs *)
(* ===================================================================== *)

(** Runs a [catch] clause on the thrown value [e] of the goal. *)
Ltac run_catch e :=
  unfold report, reported, recovered, activation_recovered, bind, sync, ret;
  destruct e as [| name message text]; cbn [message_of name_of String_of];
  [ reflexivity | ];
  repeat match goal with
         | |- context [opt_is ?n "ZodError"] => destruct (opt_is n "ZodError")
         | |- context [handle_validation_error ?g ?t] =>
             destruct (handle_validation_error g t)
         | |- context [if truthy ?m then _ else _] => destruct (truthy m)
         | |- context [call_includes ?m ?k] =>
             destruct (call_includes m k) as [? | [|]]
         end;
  reflexivity.

Section Runs.

Variable S : Type.
Variable api_client : N8nApiClient S.
Variable env : Env S.

Let guide := WORKFLOW_COMPOSITION_GUIDE env.
Let cfg := config env.

Lemma handle_list_workflows_run (args : Args) (s : S) :
  handle_list_workflows api_client env args s
  = match list_workflows api_client (VObj args) s with
    | (inl e, s1) =>
        (reported "Error listing workflows: " e,
         s1, [called (ListWorkflows (VObj args)) false])
    | (inr None, s1) | (inr (Some []), s1) =>
        (inr (success_response "No workflows found."),
         s1, [called (ListWorkflows (VObj args)) true])
    | (inr (Some wfs), s1) =>
        (inr (success_response
                (format_output cfg
                   (list_summary wfs
                    ++ join (nl ++ nl)
                         (mapi (list_entry (toLocaleString env)) wfs))
                   (VArr (map wf_json wfs))
                   (lookup "verbosity" args))),
         s1, [called (ListWorkflows (VObj args)) true])
    end.
Proof.
  unfold handle_list_workflows, try_catch, bind, await, perform.
  destruct (list_workflows api_client (VObj args) s) as [[e | [[| wf wfs] |]] s1];
    try reflexivity.
  run_catch e.
Qed.

Lemma handle_get_workflow_run (args : Args) (s : S) :
  handle_get_workflow api_client env args s
  = if negb (truthy (lookup "id" args)) then
      (inl (Fault (invalid_params "Workflow ID is required")), s, [])
    else
      match get_workflow api_client (lookup "id" args) s with
      | (inl e, s1) =>
          (reported "Error retrieving workflow: " e,
           s1, [called (GetWorkflow (lookup "id" args)) false])
      | (inr wf, s1) =>
          (inr (success_response
                  (format_output cfg
                     (get_summary (toLocaleString env) (lookup "id" args) wf)
                     (wf_json wf) (lookup "verbosity" args))),
           s1, [called (GetWorkflow (lookup "id" args)) true])
      end.
Proof.
  unfold handle_get_workflow.
  destruct (negb (truthy (lookup "id" args))); [reflexivity |].
  unfold try_catch, bind, await, perform.
  destruct (get_workflow api_client (lookup "id" args) s) as [[e | wf] s1];
    [run_catch e | reflexivity].
Qed.

Lemma handle_delete_workflow_run (args : Args) (s : S) :
  handle_delete_workflow api_client args s
  = let id := lookup "id" args in
    if negb (truthy id) then
      (inl (Fault (invalid_params "Workflow ID is required")), s, [])
    else
      match get_workflow api_client id s with
      | (inl e, s1) =>
          (reported "Error deleting workflow: " e,
           s1, [called (GetWorkflow id) false])
      | (inr wf, s1) =>
          match delete_workflow api_client id s1 with
          | (inl e, s2) =>
              (reported "Error deleting workflow: " e,
               s2, [called (GetWorkflow id) true;
                    called (DeleteWorkflow id) false])
          | (inr _, s2) =>
              (inr (success_response
                      ("Successfully deleted workflow " ++ dq ++ wf_name wf
                       ++ dq ++ " (ID: " ++ to_string id ++ ")")),
               s2, [called (GetWorkflow id) true;
                    called (DeleteWorkflow id) true])
          end
      end.
Proof.
  unfold handle_delete_workflow. cbv zeta.
  destruct (negb (truthy (lookup "id" args))); [reflexivity |].
  unfold try_catch, bind, await, perform.
  destruct (get_workflow api_client (lookup "id" args) s) as [[e | wf] s1];
    [run_catch e |].
  destruct (delete_workflow api_client (lookup "id" args) s1) as [[e | r] s2];
    [run_catch e | reflexivity].
Qed.

Lemma handle_activate_workflow_run (args : Args) (s : S) :
  handle_activate_workflow api_client env args s
  = let id := lookup "id" args in
    if negb (truthy id) then
      (inl (Fault (invalid_params "Workflow ID is required")), s, [])
    else
      match activate_workflow api_client id s with
      | (inl e, s1) =>
          (activation_recovered guide e, s1,
           [called (ActivateWorkflow id) false])
      | (inr wf, s1) =>
          (inr (success_response
                  ("Successfully activated workflow " ++ dq ++ wf_name wf
                   ++ dq ++ " (ID: " ++ to_string id ++ ")")),
           s1, [called (ActivateWorkflow id) true])
      end.
Proof.
  unfold handle_activate_workflow. cbv zeta.
  destruct (negb (truthy (lookup "id" args))); [reflexivity |].
  unfold try_catch, bind, await, perform, guide.
  destruct (activate_workflow api_client (lookup "id" args) s)
    as [[e | wf] s1]; [run_catch e | reflexivity].
Qed.

Lemma handle_deactivate_workflow_run (args : Args) (s : S) :
  handle_deactivate_workflow api_client args s
  = let id := lookup "id" args in
    if negb (truthy id) then
      (inl (Fault (invalid_params "Workflow ID is required")), s, [])
    else
      match deactivate_workflow api_client id s with
      | (inl e, s1) =>
          (reported "Error deactivating workflow: " e,
           s1, [called (DeactivateWorkflow id) false])
      | (inr wf, s1) =>
          (inr (success_response
                  ("Successfully deactivated workflow " ++ dq ++ wf_name wf
                   ++ dq ++ " (ID: " ++ to_string id ++ ")")),
           s1, [called (DeactivateWorkflow id) true])
      end.
Proof.
  unfold handle_deactivate_workflow. cbv zeta.
  destruct (negb (truthy (lookup "id" args))); [reflexivity |].
  unfold try_catch, bind, await, perform.
  destruct (deactivate_workflow api_client (lookup "id" args) s)
    as [[e | wf] s1]; [run_catch e | reflexivity].
Qed.

Lemma handle_create_workflow_run (args : Args) (s : S) :
  handle_create_workflow api_client env args s
  = let recover := recovered "Error creating workflow: " guide in
    match CreateWorkflowInputSchema_parse env (VObj args) with
    | inl e => (recover e, s, [])
    | inr parsed_input =>
        match validate_workflow_nodes env
                (in_nodes (workflow parsed_input)) s with
        | (inl e, s1) => (recover e, s1, [])
        | (inr invalid_nodes, s1) =>
            if Nat.ltb 0 (length invalid_nodes) then
              (inr (error_response
                      (invalid_nodes_text "creating" guide invalid_nodes)),
               s1, [])
            else
              let c := CreateWorkflow (workflow parsed_input)
                                      (activate parsed_input) in
              match create_workflow api_client (workflow parsed_input)
                      (activate parsed_input) s1 with
              | (inl e, s2) => (recover e, s2, [called c false])
              | (inr wf, s2) =>
                  (inr (success_response
                          ("Successfully "
                           ++ (if wf_active wf then "activated"
                               else "created (not activated)")
                           ++ " workflow " ++ dq ++ wf_name wf ++ dq
                           ++ " (ID: " ++ wf_id wf ++ ")")),
                   s2, [called c true])
              end
        end
    end.
Proof.
  unfold handle_create_workflow, try_catch, bind, sync, settle, await,
    perform, guide.
  cbv zeta.
  destruct (CreateWorkflowInputSchema_parse env (VObj args)) as [e | parsed].
  - run_catch e.
  - destruct (validate_workflow_nodes env (in_nodes (workflow parsed)) s)
      as [[e | invalid] s1].
    + run_catch e.
    + destruct (Nat.ltb 0 (length invalid)); [reflexivity |].
      destruct (create_workflow api_client (workflow parsed)
                  (activate parsed) s1) as [[e | wf] s2]; [| reflexivity].
      run_catch e.
Qed.

Lemma handle_update_workflow_run (args : Args) (s : S) :
  handle_update_workflow api_client env args s
  = let recover := recovered "Error updating workflow: " guide in
    let id := lookup "id" args in
    if negb (truthy id) || negb (truthy (lookup "workflow" args)) then
      (inl (Fault (invalid_params "Workflow ID and updated workflow data are required")), s, [])
    else
      match WorkflowSchema_parse env (lookup "workflow" args) with
      | inl e => (recover e, s, [])
      | inr parsed_workflow =>
          match validate_workflow_nodes env (in_nodes parsed_workflow) s with
          | (inl e, s1) => (recover e, s1, [])
          | (inr invalid_nodes, s1) =>
              if Nat.ltb 0 (length invalid_nodes) then
                (inr (error_response
                        (invalid_nodes_text "updating" guide invalid_nodes)),
                 s1, [])
              else
                let c := UpdateWorkflow id parsed_workflow in
                match update_workflow api_client id parsed_workflow s1 with
                | (inl e, s2) => (recover e, s2, [called c false])
                | (inr wf, s2) =>
                    (inr (success_response
                            ("Successfully updated workflow " ++ dq
                             ++ wf_name wf ++ dq ++ " (ID: " ++ to_string id
                             ++ ", Status: "
                             ++ (if wf_active wf then "active" else "inactive")
                             ++ ")")),
                     s2, [called c true])
                end
          end
      end.
Proof.
  unfold handle_update_workflow. cbv zeta.
  destruct (negb (truthy (lookup "id" args))
            || negb (truthy (lookup "workflow" args))); [reflexivity |].
  unfold try_catch, bind, sync, settle, await, perform, guide.
  destruct (WorkflowSchema_parse env (lookup "workflow" args))
    as [e | parsed].
  - run_catch e.
  - destruct (validate_workflow_nodes env (in_nodes parsed) s)
      as [[e | invalid] s1].
    + run_catch e.
    + destruct (Nat.ltb 0 (length invalid)); [reflexivity |].
      destruct (update_workflow api_client (lookup "id" args) parsed s1)
        as [[e | wf] s2]; [| reflexivity].
      run_catch e.
Qed.

End Runs.

(* ===================================================================== *)
(** * list_workflows and get_workflow: what the summaries report *)
(* ===================================================================== *)

Lemma filter_active_count (wfs : list Workflow) :
  length (filter wf_active wfs) = count_active wfs.
Proof.
  induction wfs as [| wf wfs IH]; simpl; [reflexivity |].
  destruct (wf_active wf); simpl; now rewrite IH.
Qed.

Lemma filter_trigger_count (ns : list Node) :
  length (filter (fun node =>
                    includes (toLowerCase (node_type_id node)) "trigger") ns)
  = count_triggers ns.
Proof.
  induction ns as [| n ns IH]; [reflexivity |].
  cbn [filter count_triggers]. unfold is_trigger.
  destruct (includes (toLowerCase (node_type_id n)) "trigger"); simpl length;
    now rewrite IH.
Qed.

Lemma list_summary_counts (wfs : list Workflow) :
  list_summary wfs
  = "Found " ++ string_of_nat (length wfs) ++ " workflow"
    ++ (if Nat.eqb (length wfs) 1 then "" else "s")
    ++ " (" ++ string_of_nat (count_active wfs) ++ " active, "
    ++ string_of_nat (length wfs - count_active wfs)
    ++ " inactive):" ++ nl ++ nl.
Proof.
  unfold list_summary. rewrite filter_active_count.
  destruct (Nat.eqb (length wfs) 1); reflexivity.
Qed.

(** C7: on an empty (or absent) list the handler returns exactly the
    one-item response "No workflows found." with no isError; on a list
    of N > 0 workflows of which A are active the text starts with
    "Found N workflow(s) (A active, N-A inactive):", the plural s being
    dropped exactly when N = 1; three workflows with flags true, false,
    false are reported as "3 workflows (1 active, 2 inactive)". *)
Theorem handle_list_workflows_report
        (S : Type) (api_client : N8nApiClient S) (env : Env S)
        (args : Args) (s s1 : S) :
  let history := [ {| ev_call := ListWorkflows (VObj args); ev_ok := true |} ] in
  (list_workflows api_client (VObj args) s = (inr None, s1)
   \/ list_workflows api_client (VObj args) s = (inr (Some []), s1) ->
   handle_list_workflows api_client env args s
   = (inr {| content := [ {| type := "text"; text := "No workflows found." |} ];
             isError := None |},
      s1, history))
  /\ (forall wfs,
        wfs <> [] ->
        list_workflows api_client (VObj args) s = (inr (Some wfs), s1) ->
        let n := length wfs in
        let a := count_active wfs in
        exists rest,
          handle_list_workflows api_client env args s
          = (inr {| content :=
                      [ {| type := "text";
                           text := "Found " ++ string_of_nat n ++ " workflow"
                                   ++ (if Nat.eqb n 1 then "" else "s")
                                   ++ " (" ++ string_of_nat a ++ " active, "
                                   ++ string_of_nat (n - a) ++ " inactive):"
                                   ++ rest |} ];
                    isError := None |},
             s1, history))
  /\ (forall w1 w2 w3,
        wf_active w1 = true -> wf_active w2 = false -> wf_active w3 = false ->
        list_workflows api_client (VObj args) s
        = (inr (Some [w1; w2; w3]), s1) ->
        exists resp,
          handle_list_workflows api_client env args s = (inr resp, s1, history)
          /\ isError resp = None
          /\ includes (text_of resp) "3 workflows (1 active, 2 inactive)"
             = true).
Proof.
  cbv zeta. split; [| split].
  - intros [H | H]; rewrite handle_list_workflows_run, H; reflexivity.
  - intros wfs Hne H. rewrite handle_list_workflows_run, H.
    destruct wfs as [| wf wfs]; [congruence |].
    destruct (format_output_starts (config env)
                (list_summary (wf :: wfs)
                 ++ join (nl ++ nl)
                      (mapi (list_entry (toLocaleString env)) (wf :: wfs)))
                (VArr (map wf_json (wf :: wfs)))
                (lookup "verbosity" args)) as [suffix Hs].
    rewrite Hs, list_summary_counts.
    exists (nl ++ nl
            ++ join (nl ++ nl)
                 (mapi (list_entry (toLocaleString env)) (wf :: wfs))
            ++ suffix).
    unfold success_response, called.
    rewrite !append_assoc. reflexivity.
  - intros w1 w2 w3 H1 H2 H3 H. rewrite handle_list_workflows_run, H.
    eexists. split; [reflexivity |]. split; [reflexivity |].
    unfold text_of, success_response, content, text.
    destruct (format_output_starts (config env)
                (list_summary [w1; w2; w3]
                 ++ join (nl ++ nl)
                      (mapi (list_entry (toLocaleString env)) [w1; w2; w3]))
                (VArr (map wf_json [w1; w2; w3]))
                (lookup "verbosity" args)) as [suffix Hs].
    rewrite Hs. apply includes_extend, includes_extend.
    rewrite list_summary_counts. cbn [count_active length].
    rewrite H1, H2, H3. reflexivity.
Qed.

Lemma handle_list_workflows_report_witness :
  handle_list_workflows Demo.client (Demo.env "concise") [] []
  = (inr {| content := [ {| type := "text"; text := "No workflows found." |} ];
            isError := None |},
     [], [ {| ev_call := ListWorkflows (VObj []); ev_ok := true |} ])
  /\ (exists rest,
        handle_list_workflows Demo.client (Demo.env "concise") []
          [Demo.sample "a" true ["Webhook"]]
        = (inr {| content :=
                    [ {| type := "text";
                         text := "Found 1 workflow (1 active, 0 inactive):"
                                 ++ rest |} ];
                  isError := None |},
           [Demo.sample "a" true ["Webhook"]],
           [ {| ev_call := ListWorkflows (VObj []); ev_ok := true |} ]))
  /\ (exists resp,
        handle_list_workflows Demo.client (Demo.env "full") [] Demo.store3
        = (inr resp, Demo.store3,
           [ {| ev_call := ListWorkflows (VObj []); ev_ok := true |} ])
        /\ isError resp = None
        /\ includes (text_of resp) "3 workflows (1 active, 2 inactive)" = true).
Proof.
  split; [| split].
  - destruct (handle_list_workflows_report Demo.client (Demo.env "concise")
                [] [] []) as (H & _).
    apply H. right. reflexivity.
  - destruct (handle_list_workflows_report Demo.client (Demo.env "concise") []
                [Demo.sample "a" true ["Webhook"]]
                [Demo.sample "a" true ["Webhook"]]) as (_ & H & _).
    apply (H [Demo.sample "a" true ["Webhook"]]);
      [discriminate | reflexivity].
  - destruct (handle_list_workflows_report Demo.client (Demo.env "full") []
                Demo.store3 Demo.store3) as (_ & _ & H).
    apply (H (Demo.sample "a" true ["ScheduleTrigger"; "Set"])
             (Demo.sample "b" false ["Set"])
             (Demo.sample "c" false ["ManualTrigger"])); reflexivity.
Defined.

(** C8: on a fetched workflow the summary holds the line
    "Nodes: N (including K trigger nodes)" where N is the number of nodes
    and K the number of nodes whose type identifier, case-folded,
    contains "trigger"; for the node types ScheduleTrigger and Set this
    is "Nodes: 2 (including 1 trigger nodes)". *)
Theorem handle_get_workflow_trigger_count
        (S : Type) (api_client : N8nApiClient S) (env : Env S)
        (args : Args) (s s1 : S) (wf : Workflow) :
  truthy (lookup "id" args) = true ->
  get_workflow api_client (lookup "id" args) s = (inr wf, s1) ->
  exists resp,
    handle_get_workflow api_client env args s
    = (inr resp, s1,
       [ {| ev_call := GetWorkflow (lookup "id" args); ev_ok := true |} ])
    /\ isError resp = None
    /\ (exists before after,
          text_of resp
          = before
            ++ "Nodes: " ++ string_of_nat (length (wf_nodes wf))
            ++ " (including " ++ string_of_nat (count_triggers (wf_nodes wf))
            ++ " trigger nodes)"
            ++ after)
    /\ (map node_type_id (wf_nodes wf) = ["ScheduleTrigger"; "Set"] ->
        includes (text_of resp) "Nodes: 2 (including 1 trigger nodes)" = true).
Proof.
  intros Hid Hget.
  rewrite handle_get_workflow_run, Hid, Hget. cbn [negb].
  eexists. split; [reflexivity |]. split; [reflexivity |].
  unfold text_of, success_response, content, text.
  destruct (format_output_starts (config env)
              (get_summary (toLocaleString env) (lookup "id" args) wf)
              (wf_json wf) (lookup "verbosity" args))
    as [suffix Hs].
  rewrite Hs. unfold get_summary. rewrite filter_trigger_count.
  assert (Hshape :
    exists before after,
      ("Workflow: " ++ dq ++ wf_name wf ++ dq
       ++ " (ID: " ++ to_string (lookup "id" args) ++ ")" ++ nl
       ++ "Status: " ++ (if wf_active wf then "Active" else "Inactive") ++ nl
       ++ "Created: " ++ toLocaleString env (wf_created_at wf) ++ nl
       ++ "Updated: " ++ toLocaleString env (wf_updated_at wf) ++ nl
       ++ "Nodes: " ++ string_of_nat (length (wf_nodes wf)) ++ " (including "
       ++ string_of_nat (count_triggers (wf_nodes wf))
       ++ " trigger nodes)" ++ nl
       ++ "Tags: " ++ tags_text (wf_tags wf)) ++ suffix
      = before
        ++ "Nodes: " ++ string_of_nat (length (wf_nodes wf))
        ++ " (including " ++ string_of_nat (count_triggers (wf_nodes wf))
        ++ " trigger nodes)"
        ++ after).
  { exists ("Workflow: " ++ dq ++ wf_name wf ++ dq
            ++ " (ID: " ++ to_string (lookup "id" args) ++ ")" ++ nl
            ++ "Status: " ++ (if wf_active wf then "Active" else "Inactive")
            ++ nl
            ++ "Created: " ++ toLocaleString env (wf_created_at wf) ++ nl
            ++ "Updated: " ++ toLocaleString env (wf_updated_at wf) ++ nl),
           (nl ++ "Tags: " ++ tags_text (wf_tags wf) ++ suffix).
    rewrite !append_assoc. reflexivity. }
  split; [exact Hshape |].
  intros Htypes.
  destruct Hshape as (before & after & ->).
  assert (Hn : length (wf_nodes wf) = 2)
    by (rewrite <- (length_map node_type_id), Htypes; reflexivity).
  assert (Hk : count_triggers (wf_nodes wf) = 1).
  { destruct (wf_nodes wf) as [| n1 [| n2 [| n3 ns]]]; try discriminate.
    injection Htypes as H1 H2. unfold count_triggers, is_trigger.
    rewrite H1, H2. reflexivity. }
  rewrite Hn, Hk. apply includes_skip.
  apply (includes_here "Nodes: 2 (including 1 trigger nodes)" after).
Qed.

Lemma handle_get_workflow_trigger_count_witness :
  exists resp,
    handle_get_workflow Demo.client (Demo.env "concise")
      [("id", VStr "a")] Demo.store3
    = (inr resp, Demo.store3,
       [ {| ev_call := GetWorkflow (VStr "a"); ev_ok := true |} ])
    /\ isError resp = None
    /\ (exists before after,
          text_of resp
          = before ++ "Nodes: 2 (including 1 trigger nodes)" ++ after)
    /\ includes (text_of resp) "Nodes: 2 (including 1 trigger nodes)" = true.
Proof.
  destruct (handle_get_workflow_trigger_count Demo.client
              (Demo.env "concise") [("id", VStr "a")] Demo.store3
              (wf := Demo.sample "a" true ["ScheduleTrigger"; "Set"])
              eq_refl eq_refl)
    as (resp & Hrun & Hok & Hshape & Hexample).
  exists resp. split; [exact Hrun |]. split; [exact Hok |].
  split; [exact Hshape |]. apply Hexample. reflexivity.
Defined.

(* ===================================================================== *)
(** * delete_workflow and activate_workflow: failure handling *)
(* ===================================================================== *)








(* ===================================================================== *)
(** * create_workflow and update_workflow: validation before the call *)
(* ===================================================================== *)

Lemma includes_join (sep x : string) (l : list string) :
  In x l -> includes (join sep l) x = true.
Proof.
  induction l as [| y l IH]; intros Hin; [destruct Hin |].
  destruct l as [| z l].
  - destruct Hin as [-> | []]. apply includes_self.
  - change (includes (y ++ sep ++ join sep (z :: l)) x = true).
    destruct Hin as [-> | Hin].
    + apply includes_here.
    + apply includes_skip, includes_skip, IH, Hin.
Qed.

Lemma invalid_node_line_type (n : InvalidNode) :
  includes (invalid_node_line n) (node_type n) = true.
Proof.
  unfold invalid_node_line. find_piece.
Qed.

Lemma invalid_node_line_suggestion (n : InvalidNode) (sg : string) :
  suggestion n = Some sg -> sg <> "" ->
  includes (invalid_node_line n) ("Did you mean '" ++ sg ++ "'?") = true.
Proof.
  intros Hs Hne. unfold invalid_node_line. rewrite Hs.
  unfold str_truthy, opt_text.
  destruct (String.eqb_spec sg ""); [contradiction |].
  cbn [negb]. find_piece.
Qed.

Lemma invalid_node_line_no_suggestion (n : InvalidNode) :
  suggestion n = None ->
  includes (invalid_node_line n) "No similar nodes found." = true.
Proof.
  intros Hs. unfold invalid_node_line. rewrite Hs.
  cbn [str_truthy]. find_piece.
Qed.

(** C6: when the payload passes the schema and the node validator
    reports a non-empty list, create_workflow returns an error response
    (isError true) whose text lists one line per reported node, in the
    order of the report, and ends with the node-category guidance; the
    line of a node names its type, holds "Did you mean '<suggestion>'?"
    when the node comes with a (non-empty) suggestion and
    "No similar nodes found." when it comes with none. *)
Theorem handle_create_workflow_invalid_nodes
        (S : Type) (api_client : N8nApiClient S) (env : Env S)
        (args : Args) (s s1 : S)
        (parsed_input : CreateWorkflowInput) (invalid : list InvalidNode) :
  CreateWorkflowInputSchema_parse env (VObj args) = inr parsed_input ->
  validate_workflow_nodes env (in_nodes (workflow parsed_input)) s
  = (inr invalid, s1) ->
  invalid <> [] ->
  let lines := map invalid_node_line invalid in
  let report :=
    "Workflow contains invalid node types:" ++ nl
    ++ join nl lines ++ nl ++ nl
    ++ "Please correct these node types before creating the workflow."
    ++ nl ++ nl
    ++ "Here are the available node categories for reference:" ++ nl
    ++ node_categories (WORKFLOW_COMPOSITION_GUIDE env) in
  handle_create_workflow api_client env args s
  = (inr {| content := [ {| type := "text"; text := report |} ];
            isError := Some true |},
     s1, [])
  /\ (forall n,
        In n invalid ->
        includes report (invalid_node_line n) = true
        /\ includes (invalid_node_line n) (node_type n) = true
        /\ (forall sg,
              suggestion n = Some sg -> sg <> "" ->
              includes (invalid_node_line n)
                       ("Did you mean '" ++ sg ++ "'?") = true)
        /\ (suggestion n = None ->
            includes (invalid_node_line n) "No similar nodes found." = true)).
Proof.
  intros Hparse Hval Hne. cbv zeta. split.
  - rewrite handle_create_workflow_run. cbv zeta. rewrite Hparse, Hval.
    destruct invalid as [| n invalid]; [congruence |]. reflexivity.
  - intros n Hin. split; [| split; [| split]].
    + apply (includes_skip ("Workflow contains invalid node types:" ++ nl)).
      apply includes_extend, includes_join, in_map, Hin.
    + apply invalid_node_line_type.
    + apply invalid_node_line_suggestion.
    + apply invalid_node_line_no_suggestion.
Qed.

Lemma handle_create_workflow_invalid_nodes_witness :
  handle_create_workflow Demo.client (Demo.env "concise") two_bad_nodes
    Demo.store3
  = (inr {| content :=
              [ {| type := "text";
                   text := "Workflow contains invalid node types:" ++ nl
                           ++ "- 'webhook': Not a valid n8n node. Did you mean 'Webhook'?"
                           ++ nl
                           ++ "- 'Frobnicate': Not a valid n8n node. No similar nodes found."
                           ++ nl ++ nl
                           ++ "Please correct these node types before creating the workflow."
                           ++ nl ++ nl
                           ++ "Here are the available node categories for reference:"
                           ++ nl ++ "NODE CATEGORIES" |} ];
            isError := Some true |},
     Demo.store3, [])
  /\ includes
       (invalid_node_line
          {| node_type := "webhook"; suggestion := Some "Webhook" |})
       "Did you mean 'Webhook'?" = true
  /\ includes
       (invalid_node_line
          {| node_type := "Frobnicate"; suggestion := None |})
       "No similar nodes found." = true.
Proof.
  destruct (handle_create_workflow_invalid_nodes Demo.client
              (Demo.env "concise") two_bad_nodes Demo.store3
              (parsed_input :=
                 {| workflow :=
                      {| in_name := "demo";
                         in_nodes := [ {| node_type_id := "webhook" |};
                                       {| node_type_id := "Set" |};
                                       {| node_type_id := "Frobnicate" |} ];
                         in_connections := VUndefined |};
                    activate := None |})
              (invalid :=
                 [ {| node_type := "webhook"; suggestion := Some "Webhook" |};
                   {| node_type := "Frobnicate"; suggestion := None |} ])
              eq_refl eq_refl ltac:(discriminate)) as (Hrun & Hlines).
  split; [exact Hrun |]. split.
  - destruct (Hlines {| node_type := "webhook"; suggestion := Some "Webhook" |}
                (or_introl eq_refl)) as (_ & _ & H & _).
    apply (H "Webhook" eq_refl). discriminate.
  - destruct (Hlines {| node_type := "Frobnicate"; suggestion := None |}
                (or_intror (or_introl eq_refl))) as (_ & _ & _ & H).
    apply H. reflexivity.
Defined.

(** C10: when the pre-call validation of create_workflow or of
    update_workflow fails, because the schema parse throws or because
    the node validator reports at least one invalid node, the run awaits
    no API Client method at all; in particular create_workflow
    (respectively update_workflow) is never invoked. *)
Theorem validation_failure_makes_no_api_call
        (S : Type) (api_client : N8nApiClient S) (env : Env S)
        (args : Args) (s : S) :
  let create_run := handle_create_workflow api_client env args s in
  let update_run := handle_update_workflow api_client env args s in
  ((exists e, CreateWorkflowInputSchema_parse env (VObj args) = inl e) ->
   history_of create_run = []
   /\ invoked is_create (history_of create_run) = false)
  /\ (forall parsed_input invalid s1,
        CreateWorkflowInputSchema_parse env (VObj args) = inr parsed_input ->
        validate_workflow_nodes env (in_nodes (workflow parsed_input)) s
        = (inr invalid, s1) ->
        invalid <> [] ->
        history_of create_run = []
        /\ invoked is_create (history_of create_run) = false)
  /\ ((exists e,
         WorkflowSchema_parse env (lookup "workflow" args) = inl e) ->
      history_of update_run = []
      /\ invoked is_update (history_of update_run) = false)
  /\ (forall parsed_workflow invalid s1,
        WorkflowSchema_parse env (lookup "workflow" args)
        = inr parsed_workflow ->
        validate_workflow_nodes env (in_nodes parsed_workflow) s
        = (inr invalid, s1) ->
        invalid <> [] ->
        history_of update_run = []
        /\ invoked is_update (history_of update_run) = false).
Proof.
  cbv zeta. split; [| split; [| split]].
  - intros [e He]. rewrite handle_create_workflow_run. cbv zeta.
    rewrite He. split; reflexivity.
  - intros parsed invalid s1 Hp Hv Hne.
    rewrite handle_create_workflow_run. cbv zeta. rewrite Hp, Hv.
    destruct invalid; [congruence |]. split; reflexivity.
  - intros [e He]. rewrite handle_update_workflow_run. cbv zeta.
    destruct (negb _ || negb _); [split; reflexivity |].
    rewrite He. split; reflexivity.
  - intros parsed invalid s1 Hp Hv Hne.
    rewrite handle_update_workflow_run. cbv zeta.
    destruct (negb _ || negb _); [split; reflexivity |].
    rewrite Hp, Hv.
    destruct invalid; [congruence |]. split; reflexivity.
Qed.

Lemma validation_failure_makes_no_api_call_witness :
  invoked is_create
    (history_of (handle_create_workflow Demo.client (Demo.env "concise")
                   [("workflow", VNum 3)] Demo.store3)) = false
  /\ invoked is_create
       (history_of (handle_create_workflow Demo.client (Demo.env "concise")
                      two_bad_nodes Demo.store3)) = false
  /\ invoked is_update
       (history_of (handle_update_workflow Demo.client (Demo.env "concise")
                      update_bad_schema Demo.store3)) = false
  /\ invoked is_update
       (history_of (handle_update_workflow Demo.client (Demo.env "concise")
                      update_bad_nodes Demo.store3)) = false.
Proof.
  split; [| split; [| split]].
  - destruct (validation_failure_makes_no_api_call Demo.client
                (Demo.env "concise") [("workflow", VNum 3)] Demo.store3)
      as (H & _).
    apply H. eexists. reflexivity.
  - destruct (validation_failure_makes_no_api_call Demo.client
                (Demo.env "concise") two_bad_nodes Demo.store3)
      as (_ & H & _).
    eapply H; [reflexivity | reflexivity | discriminate].
  - destruct (validation_failure_makes_no_api_call Demo.client
                (Demo.env "concise") update_bad_schema Demo.store3)
      as (_ & _ & H & _).
    apply H. eexists. reflexivity.
  - destruct (validation_failure_makes_no_api_call Demo.client
                (Demo.env "concise") update_bad_nodes Demo.store3)
      as (_ & _ & _ & H).
    eapply H; [reflexivity | reflexivity | discriminate].
Defined.

(* ===================================================================== *)
(** * The uniform contract of the seven handlers *)
(* ===================================================================== *)

Lemma validation_or_generic_is_error (prefix : string) (guide : Guide)
      (e : JsError) :
  isError (validation_or_generic prefix guide e) = Some true
  /\ length (content (validation_or_generic prefix guide e)) = 1.
Proof.
  unfold validation_or_generic.
  destruct (opt_is (err_name e) "ZodError"); split; reflexivity.
Qed.

Lemma activation_failure_is_error (guide : Guide) (e : JsError) :
  isError (activation_failure guide e) = Some true
  /\ length (content (activation_failure guide e)) = 1.
Proof.
  unfold activation_failure.
  destruct (mentions_trigger e); split; reflexivity.
Qed.

(** Closes a case of a run: the response is named and its flags are
    compared with the effect. *)
Ltac flags_done :=
  contract_catch;
  eexists; split; [reflexivity |];
  repeat match goal with
         | |- context [validation_or_generic ?p ?g ?e] =>
             let Hi := fresh in
             let Hl := fresh in
             destruct (validation_or_generic_is_error p g e) as [Hi Hl];
             rewrite ?Hi, ?Hl; clear Hi Hl
         | |- context [activation_failure ?g ?e] =>
             let Hi := fresh in
             let Hl := fresh in
             destruct (activation_failure_is_error g e) as [Hi Hl];
             rewrite ?Hi, ?Hl; clear Hi Hl
         end;
  cbn [isError content length error_response success_response];
  repeat split; intros; try discriminate; reflexivity.

(** C1, as stated, fails: with the required id present, get_workflow on
    an API Client whose promise rejects with undefined returns no
    response; the catch clause reads the message of the rejection and a
    TypeError leaves the handler.  So does activate_workflow when the
    rejection is an object whose message is the number 42, on which the
    catch clause calls includes. *)
Lemma handler_raises_on_nullish_rejection :
  required_present get_tool [("id", VStr "a")] = true
  /\ handler_of (Demo.rejecting ThrownNullish) (Demo.env "concise") get_tool
       [("id", VStr "a")] Demo.store3
     = (inl TypeError, Demo.store3,
        [ {| ev_call := GetWorkflow (VStr "a"); ev_ok := false |} ])
  /\ handler_of
       (Demo.rejecting (ThrownValue (Some "Error") (VNum 42) "Error: 42"))
       (Demo.env "concise") activate_tool [("id", VStr "a")] Demo.store3
     = (inl TypeError, Demo.store3,
        [ {| ev_call := ActivateWorkflow (VStr "a"); ev_ok := false |} ]).
Proof.
  repeat split.
Qed.

(** C1 (amended): when everything the API Client and the node validator
    reject with, and everything a schema throws, is an error that
    exposes a message string or none, every handler run on an argument
    object that carries the required arguments returns one response and
    nothing leaves it otherwise.  The run is the operation the tool
    stands for: the state it leaves and the calls it made are those of
    carrying that operation out on the API Client, and the response has
    isError set exactly when the operation was not carried out to the
    end, and no isError field exactly when it was.  When a required
    argument is missing (falsy), the handler throws the invalid-params
    fault instead, with no awaited call made and the state behind the
    calls untouched. *)
Theorem handlers_return_one_response
        (S : Type) (api_client : N8nApiClient S) (env : Env S)
        (t : Tool) (args : Args) (s : S) :
  conforming api_client env ->
  let effect := backend_effect api_client env t args s in
  (required_present t args = true ->
   exists resp,
     handler_of api_client env t args s
     = (inr resp, final effect, calls effect)
     /\ length (content resp) = 1
     /\ (isError resp = Some true <-> done effect = false)
     /\ (isError resp = None <-> done effect = true)
     /\ completed t (calls effect) = done effect)
  /\ (required_present t args = false ->
      exists m,
        handler_of api_client env t args s
        = (inl (Fault (mkMcpError InvalidParams m)), s, [])).
Proof.
  intros (Hapi & Hval & Hcreate & Hupdate). cbv zeta.
  unfold backend_effect, and_then, attempt, untouched.
  destruct t; cbn [handler_of required_present perform]; split; intros Hreq;
    try discriminate.
  - rewrite handle_list_workflows_run.
    destruct (list_workflows api_client (VObj args) s)
      as [[e | [[| wf wfs] |]] s1] eqn:H;
      [ apply (Hapi (ListWorkflows (VObj args))) in H; destruct H as [e' ->]
      | | | ]; flags_done.
  - rewrite handle_create_workflow_run. cbv zeta.
    destruct (CreateWorkflowInputSchema_parse env (VObj args))
      as [e | parsed] eqn:Hp.
    { apply Hcreate in Hp. destruct Hp as [e' ->]. flags_done. }
    destruct (validate_workflow_nodes env (in_nodes (workflow parsed)) s)
      as [[e | [| n invalid]] s1] eqn:Hv.
    { apply Hval in Hv. destruct Hv as [e' ->]. flags_done. }
    { cbn [length Nat.ltb Nat.leb].
      destruct (create_workflow api_client (workflow parsed)
                  (activate parsed) s1) as [[e | wf] s2] eqn:Hc;
        [ apply (Hapi (CreateWorkflow (workflow parsed) (activate parsed)))
            in Hc; destruct Hc as [e' ->] | ];
        flags_done. }
    flags_done.
  - rewrite handle_get_workflow_run, Hreq. cbn [negb].
    destruct (get_workflow api_client (lookup "id" args) s)
      as [[e | wf] s1] eqn:H;
      [ apply (Hapi (GetWorkflow (lookup "id" args))) in H;
        destruct H as [e' ->] | ];
      flags_done.
  - rewrite handle_get_workflow_run, Hreq. cbn [negb]. eexists. reflexivity.
  - apply andb_true_iff in Hreq. destruct Hreq as [Hid Hwf].
    rewrite handle_update_workflow_run. cbv zeta. rewrite Hid, Hwf.
    cbn [negb orb].
    destruct (WorkflowSchema_parse env (lookup "workflow" args))
      as [e | parsed] eqn:Hp.
    { apply Hupdate in Hp. destruct Hp as [e' ->]. flags_done. }
    destruct (validate_workflow_nodes env (in_nodes parsed) s)
      as [[e | [| n invalid]] s1] eqn:Hv.
    { apply Hval in Hv. destruct Hv as [e' ->]. flags_done. }
    { cbn [length Nat.ltb Nat.leb].
      destruct (update_workflow api_client (lookup "id" args) parsed s1)
        as [[e | wf] s2] eqn:Hc;
        [ apply (Hapi (UpdateWorkflow (lookup "id" args) parsed)) in Hc;
          destruct Hc as [e' ->] | ];
        flags_done. }
    flags_done.
  - rewrite handle_update_workflow_run. cbv zeta.
    apply andb_false_iff in Hreq.
    destruct Hreq as [-> | ->]; cbn [negb orb];
      [| rewrite orb_true_r]; eexists; reflexivity.
  - rewrite handle_delete_workflow_run. cbv zeta. rewrite Hreq. cbn [negb].
    destruct (get_workflow api_client (lookup "id" args) s)
      as [[e | wf] s1] eqn:H.
    { apply (Hapi (GetWorkflow (lookup "id" args))) in H.
      destruct H as [e' ->]. flags_done. }
    cbn [is_fulfilled done final calls].
    destruct (delete_workflow api_client (lookup "id" args) s1)
      as [[e | r] s2] eqn:Hd;
      [ apply (Hapi (DeleteWorkflow (lookup "id" args))) in Hd;
        destruct Hd as [e' ->] | ];
      flags_done.
  - rewrite handle_delete_workflow_run. cbv zeta. rewrite Hreq. cbn [negb].
    eexists. reflexivity.
  - rewrite handle_activate_workflow_run. cbv zeta. rewrite Hreq. cbn [negb].
    destruct (activate_workflow api_client (lookup "id" args) s)
      as [[e | wf] s1] eqn:H;
      [ apply (Hapi (ActivateWorkflow (lookup "id" args))) in H;
        destruct H as [e' ->] | ];
      flags_done.
  - rewrite handle_activate_workflow_run. cbv zeta. rewrite Hreq. cbn [negb].
    eexists. reflexivity.
  - rewrite handle_deactivate_workflow_run. cbv zeta. rewrite Hreq.
    cbn [negb].
    destruct (deactivate_workflow api_client (lookup "id" args) s)
      as [[e | wf] s1] eqn:H;
      [ apply (Hapi (DeactivateWorkflow (lookup "id" args))) in H;
        destruct H as [e' ->] | ];
      flags_done.
  - rewrite handle_deactivate_workflow_run. cbv zeta. rewrite Hreq.
    cbn [negb]. eexists. reflexivity.
Qed.

Lemma demo_backend_conforming (verbosity : string) :
  conforming Demo.client (Demo.env verbosity)
  /\ conforming Demo.read_only (Demo.env verbosity).
Proof.
  assert (Hparse : forall v t,
            Demo.parse_workflow v = inl t -> contract_error t).
  { intros v t H. unfold Demo.parse_workflow in H.
    repeat match type of H with
           | context [match ?x with _ => _ end] => destruct x
           end;
      try discriminate; injection H as <-; eexists; reflexivity. }
  assert (Hcreate : forall v t,
            Demo.parse_create v = inl t -> contract_error t).
  { intros v t H. unfold Demo.parse_create in H.
    destruct v; try (injection H as <-; eexists; reflexivity).
    destruct (Demo.parse_workflow (lookup "workflow" props)) eqn:Hw;
      [| discriminate].
    injection H as <-. exact (Hparse _ _ Hw). }
  assert (Hfound : forall A id (k : Workflow -> Demo.Store ->
                                    (Thrown + A) * Demo.Store) s t s1,
            (forall wf st t' st', k wf st = (inl t', st') ->
                                  contract_error t') ->
            Demo.with_found id k s = (inl t, s1) -> contract_error t).
  { intros A id k s t s1 Hk H. unfold Demo.with_found in H.
    destruct (find (Demo.has_id id) s) as [wf |].
    - exact (Hk _ _ _ _ H).
    - injection H as <- _. eexists. reflexivity. }
  split; (split; [| split; [| split]]);
    try (intros nodes s t s1 H; discriminate H);
    try exact Hcreate; try exact Hparse.
  - intros c s t s1 H.
    destruct c; cbn [perform Demo.client list_workflows create_workflow
                     get_workflow update_workflow delete_workflow
                     activate_workflow deactivate_workflow] in H;
      try discriminate H;
      apply Hfound in H; try exact H;
      intros wf st t' st' Hk; try discriminate Hk.
    destruct (Nat.ltb 0 (count_triggers (wf_nodes wf))); [discriminate |].
    injection Hk as <- _. eexists. reflexivity.
  - intros c s t s1 H.
    destruct c; cbn [perform Demo.read_only Demo.client list_workflows
                     create_workflow get_workflow update_workflow
                     delete_workflow activate_workflow deactivate_workflow]
                  in H;
      try discriminate H;
      try (injection H as <- _; eexists; reflexivity).
    apply Hfound in H; [exact H |].
    intros wf st t' st' Hk. discriminate Hk.
Qed.

Lemma handlers_return_one_response_witness :
  (exists resp,
     handler_of Demo.client (Demo.env "concise") delete_tool
       [("id", VStr "b")] Demo.store3
     = (inr resp,
        [ Demo.sample "a" true ["ScheduleTrigger"; "Set"];
          Demo.sample "c" false ["ManualTrigger"] ],
        [ {| ev_call := GetWorkflow (VStr "b"); ev_ok := true |};
          {| ev_call := DeleteWorkflow (VStr "b"); ev_ok := true |} ])
     /\ length (content resp) = 1
     /\ isError resp = None)
  /\ (exists resp,
        handler_of Demo.read_only (Demo.env "concise") delete_tool
          [("id", VStr "b")] Demo.store3
        = (inr resp, Demo.store3,
           [ {| ev_call := GetWorkflow (VStr "b"); ev_ok := true |};
             {| ev_call := DeleteWorkflow (VStr "b"); ev_ok := false |} ])
        /\ isError resp = Some true)
  /\ (exists m,
        handler_of Demo.client (Demo.env "concise") update_tool
          [("id", VStr "a")] Demo.store3
        = (inl (Fault (mkMcpError InvalidParams m)), Demo.store3, [])).
Proof.
  split; [| split].
  - destruct (proj1 (handlers_return_one_response delete_tool
                       [("id", VStr "b")] Demo.store3
                       (proj1 (demo_backend_conforming "concise")))
                    eq_refl)
      as (resp & Hrun & Hlen & _ & Hok & _).
    exists resp. split; [exact Hrun |]. split; [exact Hlen |].
    apply Hok. reflexivity.
  - destruct (proj1 (handlers_return_one_response delete_tool
                       [("id", VStr "b")] Demo.store3
                       (proj2 (demo_backend_conforming "concise")))
                    eq_refl)
      as (resp & Hrun & _ & Herr & _).
    exists resp. split; [exact Hrun |]. apply Herr. reflexivity.
  - apply (proj2 (handlers_return_one_response update_tool
                    [("id", VStr "a")] Demo.store3
                    (proj1 (demo_backend_conforming "concise")))).
    reflexivity.
Defined.

(* ===================================================================== *)
(** * Further properties of the handlers *)
(* ===================================================================== *)

Ltac split_run_eq :=
  repeat match goal with
         | |- context [match ?x with (_, _) => _ end] => destruct x eqn:?
         | |- context [match ?x with inl _ => _ | inr _ => _ end] =>
             destruct x eqn:?
         | |- context [match ?x with Some _ => _ | None => _ end] =>
             destruct x eqn:?
         | |- context [match ?x with [] => _ | _ :: _ => _ end] =>
             destruct x eqn:?
         | |- context [if Nat.ltb 0 ?n then _ else _] =>
             destruct (Nat.ltb 0 n) eqn:?
         | |- context [if negb ?b then _ else _] =>
             destruct b eqn:?; cbn [negb]
         | |- context [if negb ?a || negb ?b then _ else _] =>
             destruct a eqn:?; destruct b eqn:?; cbn [negb orb]
         end.

Ltac shape_done :=
  cbn [snd]; repeat split; cbn [length]; auto;
  try (intros [? | ?]; discriminate);
  try (intros ?; congruence);
  repeat constructor; auto.

Lemma parsed_create_eta (p : CreateWorkflowInput) :
  p = {| workflow := workflow p; activate := activate p |}.
Proof. destruct p; reflexivity. Qed.

(** The history of every run, whatever the tool, the arguments and the
    collaborators: at most two calls and only delete makes two; every
    call is one the tool may make for these arguments, addressed with the
    caller's id or the parsed payload; no call follows a rejected one;
    list and get make no call that changes the remote state. *)
Theorem handler_history_shape
        (S : Type) (api_client : N8nApiClient S) (env : Env S)
        (t : Tool) (args : Args) (s : S) :
  let history := history_of (handler_of api_client env t args s) in
  length history <= 2
  /\ (t <> delete_tool -> length history <= 1)
  /\ Forall (fun ev => may_call env t args (ev_call ev)) history
  /\ stops_at_failure history = true
  /\ (t = list_tool \/ t = get_tool -> invoked mutates history = false).
Proof.
  cbv zeta. unfold history_of.
  destruct t; cbn [handler_of].
  - rewrite handle_list_workflows_run. split_run_eq; shape_done.
  - rewrite handle_create_workflow_run. cbv zeta.
    destruct (CreateWorkflowInputSchema_parse env (VObj args))
      as [e | parsed] eqn:Hp; [shape_done |].
    rewrite (parsed_create_eta parsed) in Hp.
    split_run_eq; shape_done; exact Hp.
  - rewrite handle_get_workflow_run. split_run_eq; shape_done.
  - rewrite handle_update_workflow_run. cbv zeta.
    destruct (WorkflowSchema_parse env (lookup "workflow" args))
      as [e | parsed] eqn:Hp; split_run_eq; shape_done; exact Hp.
  - rewrite handle_delete_workflow_run. cbv zeta. split_run_eq; shape_done.
  - rewrite handle_activate_workflow_run. cbv zeta.
    split_run_eq; shape_done.
  - rewrite handle_deactivate_workflow_run. cbv zeta.
    split_run_eq; shape_done.
Qed.

Lemma handler_history_shape_witness :
  length (history_of (handler_of Demo.client (Demo.env "concise") get_tool
                        [("id", VStr "a")] Demo.store3)) <= 1
  /\ invoked mutates
       (history_of (handler_of Demo.client (Demo.env "concise") list_tool
                      [] Demo.store3)) = false.
Proof.
  split.
  - destruct (handler_history_shape Demo.client (Demo.env "concise")
                get_tool [("id", VStr "a")] Demo.store3)
      as (_ & H & _).
    apply H. discriminate.
  - destruct (handler_history_shape Demo.client (Demo.env "concise")
                list_tool [] Demo.store3)
      as (_ & _ & _ & _ & H).
    apply H. left. reflexivity.
Defined.

Lemma reported_shape (prefix : string) (t : Thrown) (resp : ToolResponse) :
  reported prefix t = inr resp ->
  exists txt, resp = error_response txt /\ starts_with txt prefix = true.
Proof.
  unfold reported. destruct t as [| name message text];
    cbn [message_of]; [discriminate |].
  intros H. injection H as <-. eexists. split; [reflexivity |].
  apply starts_with_append.
Qed.

Lemma handle_validation_error_shape (guide : Guide) (t : Thrown)
      (resp : ToolResponse) :
  handle_validation_error guide t = inr resp ->
  exists txt,
    resp = error_response txt
    /\ starts_with txt "Validation error: " = true.
Proof.
  unfold handle_validation_error. destruct t as [| name message text];
    cbn [message_of]; [discriminate |].
  destruct (call_includes _ "nodes") as [x | [|]]; [discriminate | |].
  - intros H. injection H as <-. eexists. split; reflexivity.
  - destruct (call_includes _ "connections") as [x | [|]]; [discriminate | |].
    + intros H. injection H as <-. eexists. split; reflexivity.
    + destruct (call_includes _ "trigger") as [x | [|]]; [discriminate | |];
        intros H; injection H as <-; eexists; split; reflexivity.
Qed.

Lemma recovered_shape (prefix : string) (guide : Guide) (t : Thrown)
      (resp : ToolResponse) :
  recovered prefix guide t = inr resp ->
  exists txt,
    resp = error_response txt
    /\ (starts_with txt prefix = true
        \/ starts_with txt "Validation error: " = true).
Proof.
  unfold recovered. destruct t as [| name message text];
    cbn [name_of]; [discriminate |].
  destruct (opt_is name "ZodError"); intros H.
  - apply handle_validation_error_shape in H.
    destruct H as (txt & -> & H). eauto.
  - apply reported_shape in H. destruct H as (txt & -> & H). eauto.
Qed.

Lemma activation_recovered_shape (guide : Guide) (t : Thrown)
      (resp : ToolResponse) :
  activation_recovered guide t = inr resp ->
  exists txt,
    resp = error_response txt
    /\ starts_with txt "Error activating workflow: " = true.
Proof.
  unfold activation_recovered. destruct t as [| name message text];
    cbn [message_of]; [discriminate |].
  destruct (if truthy message then _ else _) as [x | [|]]; [discriminate | |].
  - intros H. injection H as <-. eexists. split; reflexivity.
  - apply reported_shape.
Qed.

Lemma format_output_keeps_prefix (cfg : Config) (summary : string)
      (details verbosity : value) (prefix : string) :
  starts_with summary prefix = true ->
  starts_with (format_output cfg summary details verbosity) prefix = true.
Proof.
  intros H. apply starts_with_split in H. destruct H as [rest ->].
  destruct (format_output_starts cfg (prefix ++ rest) details verbosity)
    as [suffix ->].
  rewrite append_assoc. apply starts_with_append.
Qed.

(** Names the response a run returned, from the equation [H] between
    its outcome and that response. *)
Ltac name_response H :=
  first
    [ apply reported_shape in H; destruct H as (? & -> & ?)
    | apply recovered_shape in H; destruct H as (? & -> & ?)
    | apply activation_recovered_shape in H; destruct H as (? & -> & ?)
    | match type of H with _ = ?r => subst r end ].

Ltac prefix_search :=
  repeat match goal with
         | H : _ \/ _ |- _ => destruct H
         | H : starts_with _ _ = true |- _ => rewrite H
         | |- context [format_output ?c ?summary ?d ?v] =>
             first
               [ rewrite (format_output_keeps_prefix c summary d v
                            "Found " eq_refl)
               | rewrite (format_output_keeps_prefix c summary d v
                            "Workflow: " eq_refl) ]
         | |- context [if wf_active ?w then _ else _] => destruct (wf_active w)
         end;
  rewrite ?orb_true_r; auto.

Ltac prefix_done :=
  eexists; split; [reflexivity |];
  cbn [isError error_response success_response existsb
       error_prefixes success_prefixes];
  split; [| split];
  [ let Hi := fresh in intros Hi; try discriminate Hi; prefix_search
  | let Hi := fresh in intros Hi; try discriminate Hi; prefix_search
  | auto ].

(** Every response a handler returns is a single item of type text, and
    its text announces the outcome: an error response begins with the
    tool's own error prefix (for create and update also with the
    validation or the invalid-node-types heading), a success response
    with the tool's success wording; isError is never set to false. *)
Theorem handler_response_shape
        (S : Type) (api_client : N8nApiClient S) (env : Env S)
        (t : Tool) (args : Args) (s s' : S)
        (resp : ToolResponse) (history : list Event) :
  handler_of api_client env t args s = (inr resp, s', history) ->
  exists txt,
    content resp = [ {| type := "text"; text := txt |} ]
    /\ (isError resp = Some true ->
        existsb (starts_with txt) (error_prefixes t) = true)
    /\ (isError resp = None ->
        existsb (starts_with txt) (success_prefixes t) = true)
    /\ (isError resp = Some true \/ isError resp = None).
Proof.
  destruct t; cbn [handler_of].
  - rewrite handle_list_workflows_run. split_run_eq;
      intros H; injection H as H <- <-; name_response H; prefix_done.
  - rewrite handle_create_workflow_run. cbv zeta. split_run_eq;
      intros H; injection H as H <- <-; name_response H; prefix_done.
  - rewrite handle_get_workflow_run. split_run_eq;
      intros H; try discriminate; injection H as H <- <-;
      name_response H; prefix_done.
  - rewrite handle_update_workflow_run. cbv zeta. split_run_eq;
      intros H; try discriminate; injection H as H <- <-;
      name_response H; prefix_done.
  - rewrite handle_delete_workflow_run. cbv zeta. split_run_eq;
      intros H; try discriminate; injection H as H <- <-;
      name_response H; prefix_done.
  - rewrite handle_activate_workflow_run. cbv zeta. split_run_eq;
      intros H; try discriminate; injection H as H <- <-;
      name_response H; prefix_done.
  - rewrite handle_deactivate_workflow_run. cbv zeta. split_run_eq;
      intros H; try discriminate; injection H as H <- <-;
      name_response H; prefix_done.
Qed.

Lemma handler_response_shape_witness :
  exists txt,
    existsb (starts_with txt) (error_prefixes activate_tool) = true
    /\ fst (fst (handler_of Demo.client (Demo.env "concise") activate_tool
                   [("id", VStr "b")] Demo.store3))
       = inr (error_response txt).
Proof.
  destruct (handler_response_shape Demo.client (Demo.env "concise")
              activate_tool [("id", VStr "b")] Demo.store3
              (resp := activation_failure Demo.guide
                         (Demo.plain_error "Workflow has no trigger node"))
              eq_refl)
    as (txt & Hshape & Herr & _ & _).
  exists txt. split; [apply Herr; reflexivity |].
  cbn in Hshape. injection Hshape as <-. reflexivity.
Defined.

(** The handlers that take an id read nothing of the argument object
    but the properties they name: two argument objects that agree on
    them give the same run, whatever else they hold. *)
Theorem handler_reads_named_fields
        (S : Type) (api_client : N8nApiClient S) (env : Env S)
        (t : Tool) (args args' : Args) (s : S) :
  forwards_args t = false ->
  (forall k, In k (reads t) -> lookup k args = lookup k args') ->
  handler_of api_client env t args s = handler_of api_client env t args' s.
Proof.
  intros Hfw Hsame.
  destruct t; try discriminate Hfw; cbn [handler_of reads] in *.
  - rewrite !handle_get_workflow_run.
    rewrite (Hsame "id" (or_introl eq_refl)).
    rewrite (Hsame "verbosity" (or_intror (or_introl eq_refl))).
    reflexivity.
  - rewrite !handle_update_workflow_run. cbv zeta.
    rewrite (Hsame "id" (or_introl eq_refl)).
    rewrite (Hsame "workflow" (or_intror (or_introl eq_refl))).
    reflexivity.
  - rewrite !handle_delete_workflow_run.
    rewrite (Hsame "id" (or_introl eq_refl)). reflexivity.
  - rewrite !handle_activate_workflow_run.
    rewrite (Hsame "id" (or_introl eq_refl)). reflexivity.
  - rewrite !handle_deactivate_workflow_run.
    rewrite (Hsame "id" (or_introl eq_refl)). reflexivity.
Qed.

Lemma handler_reads_named_fields_witness :
  handler_of Demo.client (Demo.env "concise") delete_tool
    [("id", VStr "b")] Demo.store3
  = handler_of Demo.client (Demo.env "concise") delete_tool
      [("verbosity", VStr "full"); ("id", VStr "b"); ("force", VBool true)]
      Demo.store3.
Proof.
  apply (handler_reads_named_fields Demo.client (Demo.env "concise")
           delete_tool [("id", VStr "b")]
           [("verbosity", VStr "full"); ("id", VStr "b");
            ("force", VBool true)] Demo.store3 eq_refl).
  intros k [<- | []]. reflexivity.
Defined.



(** The trigger test of activate_workflow reads the message only: a
    rejection without a (non-empty) message gets the generic line with
    the string form of the error, even when that string form mentions
    a trigger. *)
Theorem handle_activate_workflow_without_message
        (S : Type) (api_client : N8nApiClient S) (env : Env S)
        (args : Args) (s s1 : S) (e : JsError) :
  truthy (lookup "id" args) = true ->
  activate_workflow api_client (lookup "id" args) s = (inl (thrown e), s1) ->
  err_message e = None \/ err_message e = Some "" ->
  handle_activate_workflow api_client env args s
  = (inr {| content :=
              [ {| type := "text";
                   text := "Error activating workflow: " ++ err_string e |} ];
            isError := Some true |},
     s1,
     [ {| ev_call := ActivateWorkflow (lookup "id" args); ev_ok := false |} ]).
Proof.
  intros Hid Hact Hm.
  rewrite handle_activate_workflow_run. cbv zeta. rewrite Hid, Hact.
  contract_catch.
  unfold activation_failure, mentions_trigger, error_text.
  destruct Hm as [-> | ->]; reflexivity.
Qed.

Lemma handle_activate_workflow_without_message_witness :
  handle_activate_workflow
    (Demo.rejecting (Demo.thrown_string "no trigger configured"))
    (Demo.env "concise") [("id", VStr "a")] Demo.store3
  = (inr {| content :=
              [ {| type := "text";
                   text := "Error activating workflow: no trigger configured" |} ];
            isError := Some true |},
     Demo.store3,
     [ {| ev_call := ActivateWorkflow (VStr "a"); ev_ok := false |} ]).
Proof.
  apply (handle_activate_workflow_without_message
           (Demo.rejecting (Demo.thrown_string "no trigger configured"))
           (Demo.env "concise") [("id", VStr "a")] Demo.store3
           (e := Demo.thrown_string "no trigger configured")
           eq_refl eq_refl).
  left. reflexivity.
Defined.

Lemma opt_is_false (a : option string) (s : string) :
  a <> Some s -> opt_is a s = false.
Proof.
  intros H. destruct a as [t |]; [| reflexivity]. simpl.
  destruct (String.eqb_spec t s); [subst; congruence | reflexivity].
Qed.

Lemma opt_is_true (s : string) : opt_is (Some s) s = true.
Proof. simpl. apply String.eqb_refl. Qed.

(** update_workflow answers a non-empty report of the node validator as
    create_workflow does, with its own wording: an error response that
    lists one line per reported node in the order of the report and ends
    with the node-category guidance, and no API Client call.  A
    suggestion that is the empty string is rendered as no suggestion. *)
Theorem handle_update_workflow_invalid_nodes
        (S : Type) (api_client : N8nApiClient S) (env : Env S)
        (args : Args) (s s1 : S)
        (parsed_workflow : WorkflowInput) (invalid : list InvalidNode) :
  truthy (lookup "id" args) = true ->
  truthy (lookup "workflow" args) = true ->
  WorkflowSchema_parse env (lookup "workflow" args) = inr parsed_workflow ->
  validate_workflow_nodes env (in_nodes parsed_workflow) s
  = (inr invalid, s1) ->
  invalid <> [] ->
  let report :=
    "Workflow contains invalid node types:" ++ nl
    ++ join nl (map invalid_node_line invalid) ++ nl ++ nl
    ++ "Please correct these node types before updating the workflow."
    ++ nl ++ nl
    ++ "Here are the available node categories for reference:" ++ nl
    ++ node_categories (WORKFLOW_COMPOSITION_GUIDE env) in
  handle_update_workflow api_client env args s
  = (inr {| content := [ {| type := "text"; text := report |} ];
            isError := Some true |},
     s1, [])
  /\ (forall n,
        In n invalid ->
        includes report (invalid_node_line n) = true
        /\ includes (invalid_node_line n) (node_type n) = true
        /\ (suggestion n = Some "" ->
            invalid_node_line n
            = "- '" ++ node_type n
              ++ "': Not a valid n8n node. No similar nodes found.")).
Proof.
  intros Hid Hwf Hparse Hval Hne. cbv zeta. split.
  - rewrite handle_update_workflow_run. cbv zeta.
    rewrite Hid, Hwf, Hparse, Hval.
    destruct invalid as [| n invalid]; [congruence |]. reflexivity.
  - intros n Hin. split; [| split].
    + apply (includes_skip ("Workflow contains invalid node types:" ++ nl)).
      apply includes_extend, includes_join, in_map, Hin.
    + apply invalid_node_line_type.
    + intros Hs. unfold invalid_node_line. rewrite Hs. reflexivity.
Qed.

Lemma handle_update_workflow_invalid_nodes_witness :
  handle_update_workflow Demo.client (Demo.env "concise") update_bad_nodes
    Demo.store3
  = (inr {| content :=
              [ {| type := "text";
                   text := "Workflow contains invalid node types:" ++ nl
                           ++ "- 'Frobnicate': Not a valid n8n node. No similar nodes found."
                           ++ nl ++ nl
                           ++ "Please correct these node types before updating the workflow."
                           ++ nl ++ nl
                           ++ "Here are the available node categories for reference:"
                           ++ nl ++ "NODE CATEGORIES" |} ];
            isError := Some true |},
     Demo.store3, [])
  /\ invalid_node_line {| node_type := "x"; suggestion := Some "" |}
     = "- 'x': Not a valid n8n node. No similar nodes found.".
Proof.
  split.
  - destruct (handle_update_workflow_invalid_nodes Demo.client
                (Demo.env "concise") update_bad_nodes Demo.store3
                (parsed_workflow :=
                   {| in_name := "demo";
                      in_nodes := [ {| node_type_id := "Frobnicate" |} ];
                      in_connections := VUndefined |})
                (invalid :=
                   [ {| node_type := "Frobnicate"; suggestion := None |} ])
                eq_refl eq_refl eq_refl eq_refl ltac:(discriminate))
      as (Hrun & _).
    exact Hrun.
  - destruct (handle_update_workflow_invalid_nodes
                (Demo.rejecting (Demo.plain_error "unused"))
                {| config := {| output_verbosity := "concise" |};
                   WORKFLOW_COMPOSITION_GUIDE := Demo.guide;
                   CreateWorkflowInputSchema_parse := Demo.parse_create;
                   WorkflowSchema_parse := Demo.parse_workflow;
                   validate_workflow_nodes :=
                     fun _ st =>
                       (inr [ {| node_type := "x"; suggestion := Some "" |} ],
                        st);
                   toLocaleString := fun iso => iso |}
                update_bad_nodes Demo.store3
                (parsed_workflow :=
                   {| in_name := "demo";
                      in_nodes := [ {| node_type_id := "Frobnicate" |} ];
                      in_connections := VUndefined |})
                (invalid := [ {| node_type := "x"; suggestion := Some "" |} ])
                eq_refl eq_refl eq_refl eq_refl ltac:(discriminate))
      as (_ & Hlines).
    destruct (Hlines {| node_type := "x"; suggestion := Some "" |}
                (or_introl eq_refl)) as (_ & _ & H).
    apply H. reflexivity.
Defined.

(** When the node validator itself rejects, create_workflow and
    update_workflow make no API Client call and answer with the generic
    error line of the tool, from the state the validator left. *)
Theorem node_validator_rejection_is_caught
        (S : Type) (api_client : N8nApiClient S) (env : Env S)
        (args : Args) (s s1 : S) (e : JsError) :
  err_name e <> Some "ZodError" ->
  (forall parsed_input,
     CreateWorkflowInputSchema_parse env (VObj args) = inr parsed_input ->
     validate_workflow_nodes env (in_nodes (workflow parsed_input)) s
     = (inl (thrown e), s1) ->
     handle_create_workflow api_client env args s
     = (inr {| content :=
                 [ {| type := "text";
                      text := "Error creating workflow: " ++ error_text e |} ];
               isError := Some true |},
        s1, []))
  /\ (forall parsed_workflow,
        truthy (lookup "id" args) = true ->
        truthy (lookup "workflow" args) = true ->
        WorkflowSchema_parse env (lookup "workflow" args)
        = inr parsed_workflow ->
        validate_workflow_nodes env (in_nodes parsed_workflow) s
        = (inl (thrown e), s1) ->
        handle_update_workflow api_client env args s
        = (inr {| content :=
                    [ {| type := "text";
                         text := "Error updating workflow: "
                                 ++ error_text e |} ];
                  isError := Some true |},
           s1, [])).
Proof.
  intros Hname. split.
  - intros parsed Hp Hv. rewrite handle_create_workflow_run. cbv zeta.
    rewrite Hp, Hv. contract_catch. unfold validation_or_generic.
    now rewrite (opt_is_false Hname).
  - intros parsed Hid Hwf Hp Hv. rewrite handle_update_workflow_run.
    cbv zeta. rewrite Hid, Hwf, Hp, Hv. contract_catch.
    unfold validation_or_generic.
    now rewrite (opt_is_false Hname).
Qed.

Lemma node_validator_rejection_is_caught_witness :
  handle_create_workflow Demo.client Demo.env_offline
    [("workflow", Demo.good_payload)] Demo.store3
  = (inr {| content :=
              [ {| type := "text";
                   text := "Error creating workflow: connect ECONNREFUSED" |} ];
            isError := Some true |},
     Demo.store3, [])
  /\ handle_update_workflow Demo.client Demo.env_offline
       [("id", VStr "a"); ("workflow", Demo.good_payload)] Demo.store3
     = (inr {| content :=
                 [ {| type := "text";
                      text := "Error updating workflow: connect ECONNREFUSED" |} ];
               isError := Some true |},
        Demo.store3, []).
Proof.
  destruct (node_validator_rejection_is_caught Demo.client Demo.env_offline
              [("workflow", Demo.good_payload)] Demo.store3 Demo.store3
              (Demo.plain_error "connect ECONNREFUSED")
              ltac:(discriminate)) as (Hc & _).
  destruct (node_validator_rejection_is_caught Demo.client Demo.env_offline
              [("id", VStr "a"); ("workflow", Demo.good_payload)]
              Demo.store3 Demo.store3
              (Demo.plain_error "connect ECONNREFUSED")
              ltac:(discriminate)) as (_ & Hu).
  split.
  - exact (Hc {| workflow := Demo.good_input; activate := None |}
              eq_refl eq_refl).
  - exact (Hu Demo.good_input eq_refl eq_refl eq_refl eq_refl).
Defined.

(** The catch clause of create_workflow and update_workflow looks at the
    name of the error only, not at where it came from: a rejection of the
    API Client call itself that is named ZodError is answered with the
    validation guidance, although validation had passed and the call was
    made; any other rejection gets the generic line. *)
Theorem api_rejection_routed_by_name
        (S : Type) (api_client : N8nApiClient S) (env : Env S)
        (args : Args) (s s1 s2 : S) (e : JsError) :
  let guide := WORKFLOW_COMPOSITION_GUIDE env in
  (forall parsed_input,
     CreateWorkflowInputSchema_parse env (VObj args) = inr parsed_input ->
     validate_workflow_nodes env (in_nodes (workflow parsed_input)) s
     = (inr [], s1) ->
     create_workflow api_client (workflow parsed_input)
       (activate parsed_input) s1 = (inl (thrown e), s2) ->
     let history :=
       [ {| ev_call := CreateWorkflow (workflow parsed_input)
                                      (activate parsed_input);
            ev_ok := false |} ] in
     (err_name e = Some "ZodError" ->
      exists resp,
        handle_validation_error guide (thrown e) = inr resp
        /\ handle_create_workflow api_client env args s
           = (inr resp, s2, history))
     /\ (err_name e <> Some "ZodError" ->
         handle_create_workflow api_client env args s
         = (inr {| content :=
                     [ {| type := "text";
                          text := "Error creating workflow: "
                                  ++ error_text e |} ];
                   isError := Some true |},
            s2, history)))
  /\ (forall parsed_workflow,
        truthy (lookup "id" args) = true ->
        truthy (lookup "workflow" args) = true ->
        WorkflowSchema_parse env (lookup "workflow" args)
        = inr parsed_workflow ->
        validate_workflow_nodes env (in_nodes parsed_workflow) s
        = (inr [], s1) ->
        update_workflow api_client (lookup "id" args) parsed_workflow s1
        = (inl (thrown e), s2) ->
        let history :=
          [ {| ev_call := UpdateWorkflow (lookup "id" args) parsed_workflow;
               ev_ok := false |} ] in
        (err_name e = Some "ZodError" ->
         exists resp,
           handle_validation_error guide (thrown e) = inr resp
           /\ handle_update_workflow api_client env args s
              = (inr resp, s2, history))
        /\ (err_name e <> Some "ZodError" ->
            handle_update_workflow api_client env args s
            = (inr {| content :=
                        [ {| type := "text";
                             text := "Error updating workflow: "
                                     ++ error_text e |} ];
                      isError := Some true |},
               s2, history))).
Proof.
  cbv zeta. split.
  - intros parsed Hp Hv Hc.
    rewrite handle_create_workflow_run. cbv zeta. rewrite Hp, Hv, Hc.
    contract_catch. unfold validation_or_generic. split; intros Hname.
    + rewrite Hname, opt_is_true. eexists.
      split; [apply handle_validation_error_thrown | reflexivity].
    + rewrite (opt_is_false Hname). reflexivity.
  - intros parsed Hid Hwf Hp Hv Hc.
    rewrite handle_update_workflow_run. cbv zeta.
    rewrite Hid, Hwf, Hp, Hv, Hc.
    contract_catch. unfold validation_or_generic. split; intros Hname.
    + rewrite Hname, opt_is_true. eexists.
      split; [apply handle_validation_error_thrown | reflexivity].
    + rewrite (opt_is_false Hname). reflexivity.
Qed.

Lemma api_rejection_routed_by_name_witness :
  handle_create_workflow
    (Demo.rejecting (Demo.zod_error "unexpected nodes in response"))
    (Demo.env "concise") [("workflow", Demo.good_payload)] Demo.store3
  = (handle_validation_error Demo.guide
       (thrown (Demo.zod_error "unexpected nodes in response")),
     Demo.store3,
     [ {| ev_call := CreateWorkflow Demo.good_input None; ev_ok := false |} ])
  /\ handle_update_workflow Demo.read_only (Demo.env "concise")
       [("id", VStr "a"); ("workflow", Demo.good_payload)] Demo.store3
     = (inr {| content :=
                 [ {| type := "text";
                      text := "Error updating workflow: Request failed with status code 403" |} ];
               isError := Some true |},
        Demo.store3,
        [ {| ev_call := UpdateWorkflow (VStr "a") Demo.good_input;
             ev_ok := false |} ]).
Proof.
  split.
  - destruct (api_rejection_routed_by_name
                (Demo.rejecting (Demo.zod_error "unexpected nodes in response"))
                (Demo.env "concise") [("workflow", Demo.good_payload)]
                Demo.store3 Demo.store3 Demo.store3
                (Demo.zod_error "unexpected nodes in response")) as (H & _).
    destruct (H {| workflow := Demo.good_input; activate := None |}
                eq_refl eq_refl eq_refl) as (Hz & _).
    destruct (Hz eq_refl) as (resp & Hresp & Hrun).
    rewrite Hrun. do 2 f_equal. symmetry. exact Hresp.
  - destruct (api_rejection_routed_by_name Demo.read_only
                (Demo.env "concise")
                [("id", VStr "a"); ("workflow", Demo.good_payload)]
                Demo.store3 Demo.store3 Demo.store3
                (Demo.plain_error "Request failed with status code 403"))
      as (_ & H).
    destruct (H Demo.good_input eq_refl eq_refl eq_refl eq_refl eq_refl)
      as (_ & Hg).
    apply Hg. discriminate.
Defined.

(** A payload that passes the schema and the node validator reaches the
    API Client in exactly one create call, carrying the parsed workflow
    and the parsed activate flag; the success text says activated or
    created (not activated) after the active flag of the workflow the
    API returned, whatever activation was asked for, and shows the id the
    API gave. *)
Theorem handle_create_workflow_success
        (S : Type) (api_client : N8nApiClient S) (env : Env S)
        (args : Args) (s s1 s2 : S)
        (parsed_input : CreateWorkflowInput) (created : Workflow) :
  CreateWorkflowInputSchema_parse env (VObj args) = inr parsed_input ->
  validate_workflow_nodes env (in_nodes (workflow parsed_input)) s
  = (inr [], s1) ->
  create_workflow api_client (workflow parsed_input) (activate parsed_input)
    s1 = (inr created, s2) ->
  exists wording,
    handle_create_workflow api_client env args s
    = (inr {| content :=
                [ {| type := "text";
                     text := "Successfully " ++ wording ++ " workflow " ++ dq
                             ++ wf_name created ++ dq ++ " (ID: "
                             ++ wf_id created ++ ")" |} ];
              isError := None |},
       s2,
       [ {| ev_call := CreateWorkflow (workflow parsed_input)
                                      (activate parsed_input);
            ev_ok := true |} ])
    /\ (wf_active created = true -> wording = "activated")
    /\ (wf_active created = false -> wording = "created (not activated)").
Proof.
  intros Hp Hv Hc.
  exists (if wf_active created then "activated" else "created (not activated)").
  split.
  - rewrite handle_create_workflow_run. cbv zeta. rewrite Hp, Hv, Hc.
    reflexivity.
  - split; intros ->; reflexivity.
Qed.

Lemma handle_create_workflow_success_witness :
  exists wording,
    handle_create_workflow Demo.client (Demo.env "concise")
      [("workflow", Demo.good_payload); ("activate", VBool true)] []
    = (inr {| content :=
                [ {| type := "text";
                     text := "Successfully " ++ wording ++ " workflow " ++ dq
                             ++ "demo" ++ dq ++ " (ID: 1)" |} ];
              isError := None |},
       [Demo.store_workflow "1" Demo.good_input true],
       [ {| ev_call := CreateWorkflow Demo.good_input (Some true);
            ev_ok := true |} ])
    /\ wording = "activated".
Proof.
  destruct (handle_create_workflow_success Demo.client (Demo.env "concise")
              [("workflow", Demo.good_payload); ("activate", VBool true)]
              []
              (parsed_input :=
                 {| workflow := Demo.good_input; activate := Some true |})
              (created := Demo.store_workflow "1" Demo.good_input true)
              eq_refl eq_refl eq_refl) as (wording & Hrun & Hact & _).
  exists wording. split; [exact Hrun | apply Hact; reflexivity].
Defined.

(** update_workflow sends the API Client the caller's id together with
    the workflow as the schema returned it, in exactly one call, and its
    success text shows the caller's id and the active state of the
    workflow the API returned. *)
Theorem handle_update_workflow_success
        (S : Type) (api_client : N8nApiClient S) (env : Env S)
        (args : Args) (s s1 s2 : S)
        (parsed_workflow : WorkflowInput) (updated : Workflow) :
  truthy (lookup "id" args) = true ->
  truthy (lookup "workflow" args) = true ->
  WorkflowSchema_parse env (lookup "workflow" args) = inr parsed_workflow ->
  validate_workflow_nodes env (in_nodes parsed_workflow) s = (inr [], s1) ->
  update_workflow api_client (lookup "id" args) parsed_workflow s1
  = (inr updated, s2) ->
  exists status,
    handle_update_workflow api_client env args s
    = (inr {| content :=
                [ {| type := "text";
                     text := "Successfully updated workflow " ++ dq
                             ++ wf_name updated ++ dq ++ " (ID: "
                             ++ to_string (lookup "id" args) ++ ", Status: "
                             ++ status ++ ")" |} ];
              isError := None |},
       s2,
       [ {| ev_call := UpdateWorkflow (lookup "id" args) parsed_workflow;
            ev_ok := true |} ])
    /\ (wf_active updated = true -> status = "active")
    /\ (wf_active updated = false -> status = "inactive").
Proof.
  intros Hid Hwf Hp Hv Hu.
  exists (if wf_active updated then "active" else "inactive").
  split.
  - rewrite handle_update_workflow_run. cbv zeta.
    rewrite Hid, Hwf, Hp, Hv, Hu. reflexivity.
  - split; intros ->; reflexivity.
Qed.

Lemma handle_update_workflow_success_witness :
  exists status,
    handle_update_workflow Demo.client (Demo.env "concise")
      [("id", VStr "b"); ("workflow", Demo.good_payload)]
      [Demo.sample "b" false ["Set"]]
    = (inr {| content :=
                [ {| type := "text";
                     text := "Successfully updated workflow " ++ dq
                             ++ "demo" ++ dq ++ " (ID: b, Status: "
                             ++ status ++ ")" |} ];
              isError := None |},
       [Demo.store_workflow "b" Demo.good_input false],
       [ {| ev_call := UpdateWorkflow (VStr "b") Demo.good_input;
            ev_ok := true |} ])
    /\ status = "inactive".
Proof.
  destruct (handle_update_workflow_success Demo.client (Demo.env "concise")
              [("id", VStr "b"); ("workflow", Demo.good_payload)]
              [Demo.sample "b" false ["Set"]]
              (parsed_workflow := Demo.good_input)
              (updated := Demo.store_workflow "b" Demo.good_input false)
              eq_refl eq_refl eq_refl eq_refl eq_refl)
    as (status & Hrun & _ & Hin).
  exists status. split; [exact Hrun | apply Hin; reflexivity].
Defined.

(* ===================================================================== *)
(** * Further properties of the summaries *)
(* ===================================================================== *)

Lemma filter_split_length {A : Type} (f : A -> bool) (l : list A) :
  length (filter f l) + length (filter (fun x => negb (f x)) l) = length l.
Proof.
  induction l as [| x l IH]; [reflexivity |].
  cbn [filter]. destruct (f x); cbn [negb length]; lia.
Qed.

(** The two counts of the list_workflows summary add up to the total:
    the inactive count, computed as total minus active, is the number of
    workflows whose active flag is not set. *)
Theorem handle_list_workflows_counts_add_up
        (S : Type) (api_client : N8nApiClient S) (env : Env S)
        (args : Args) (s s1 : S) (wfs : list Workflow) :
  wfs <> [] ->
  list_workflows api_client (VObj args) s = (inr (Some wfs), s1) ->
  let active := length (filter wf_active wfs) in
  let inactive := length (filter (fun wf => negb (wf_active wf)) wfs) in
  active + inactive = length wfs
  /\ exists rest,
       handle_list_workflows api_client env args s
       = (inr {| content :=
                   [ {| type := "text";
                        text := "Found " ++ string_of_nat (length wfs)
                                ++ " workflow"
                                ++ (if Nat.eqb (length wfs) 1 then "" else "s")
                                ++ " (" ++ string_of_nat active ++ " active, "
                                ++ string_of_nat inactive ++ " inactive):"
                                ++ rest |} ];
                 isError := None |},
          s1, [ {| ev_call := ListWorkflows (VObj args); ev_ok := true |} ]).
Proof.
  intros Hne H. cbv zeta.
  pose proof (filter_split_length wf_active wfs) as Hsum.
  split; [exact Hsum |].
  rewrite handle_list_workflows_run, H.
  destruct wfs as [| wf wfs]; [congruence |].
  destruct (format_output_starts (config env)
              (list_summary (wf :: wfs)
               ++ join (nl ++ nl)
                    (mapi (list_entry (toLocaleString env)) (wf :: wfs)))
              (VArr (map wf_json (wf :: wfs)))
              (lookup "verbosity" args)) as [suffix Hs].
  rewrite Hs.
  exists (nl ++ nl
          ++ join (nl ++ nl)
               (mapi (list_entry (toLocaleString env)) (wf :: wfs))
          ++ suffix).
  unfold success_response, called, list_summary.
  replace (length (wf :: wfs) - length (filter wf_active (wf :: wfs)))
    with (length (filter (fun x => negb (wf_active x)) (wf :: wfs)))
    by lia.
  destruct (Nat.eqb (length (wf :: wfs)) 1);
    cbn [negb]; rewrite !append_assoc; reflexivity.
Qed.

Lemma handle_list_workflows_counts_add_up_witness :
  exists rest,
    handle_list_workflows Demo.client (Demo.env "concise") [] Demo.store3
    = (inr {| content :=
                [ {| type := "text";
                     text := "Found 3 workflows (1 active, 2 inactive):"
                             ++ rest |} ];
              isError := None |},
       Demo.store3,
       [ {| ev_call := ListWorkflows (VObj []); ev_ok := true |} ]).
Proof.
  destruct (handle_list_workflows_counts_add_up Demo.client
              (Demo.env "concise") [] Demo.store3 (wfs := Demo.store3)
              ltac:(discriminate) eq_refl) as (_ & rest & Hrun).
  exists rest. exact Hrun.
Defined.

Lemma toLowerCase_append (a b : string) :
  toLowerCase (a ++ b) = toLowerCase a ++ toLowerCase b.
Proof.
  induction a as [| c a IH]; [reflexivity |].
  cbn [append toLowerCase]. now rewrite IH.
Qed.

Lemma toLowerCase_split (t u v : string) :
  toLowerCase t = u ++ v ->
  exists t1 t2, t = t1 ++ t2 /\ toLowerCase t1 = u /\ toLowerCase t2 = v.
Proof.
  revert t. induction u as [| c u IH]; intros t H.
  - exists "", t. repeat split. exact H.
  - destruct t as [| d t]; [discriminate |].
    cbn [toLowerCase append] in H. injection H as Hc Hrest.
    destruct (IH t Hrest) as (t1 & t2 & -> & H1 & H2).
    exists (String d t1), t2. repeat split.
    + cbn [toLowerCase]. now rewrite Hc, H1.
    + exact H2.
Qed.

(** The trigger test of get_workflow is a case-insensitive substring
    test: a node counts as a trigger exactly when its type identifier
    contains, somewhere, a word that is trigger up to the case of its
    letters. *)
Theorem trigger_test_ignores_case (node : Node) :
  includes (toLowerCase (node_type_id node)) "trigger" = true
  <-> exists a w b,
        node_type_id node = a ++ w ++ b /\ toLowerCase w = "trigger".
Proof.
  split.
  - intros H. apply includes_spec in H. destruct H as (x & y & H).
    apply toLowerCase_split in H. destruct H as (a & rest & Ha & _ & Hrest).
    apply toLowerCase_split in Hrest.
    destruct Hrest as (w & b & Hr & Hw & _).
    exists a, w, b. split; [now rewrite Ha, Hr | exact Hw].
  - intros (a & w & b & Ht & Hw).
    rewrite Ht, !toLowerCase_append, Hw.
    apply includes_skip, includes_here.
Qed.

Lemma trigger_test_ignores_case_witness :
  includes (toLowerCase (node_type_id {| node_type_id := "cronTRIGGERv2" |}))
           "trigger" = true.
Proof.
  apply (proj2 (trigger_test_ignores_case
                  {| node_type_id := "cronTRIGGERv2" |})).
  exists "cron", "TRIGGER", "v2". split; reflexivity.
Defined.

Lemma mapi_from_length {A B : Type} (f : A -> nat -> B) (l : list A)
      (k : nat) :
  length (mapi_from k f l) = length l.
Proof.
  revert k. induction l as [| x l IH]; intros k; [reflexivity |].
  cbn [mapi_from length]. now rewrite IH.
Qed.

Lemma mapi_from_nth {A B : Type} (f : A -> nat -> B) (l : list A)
      (k i : nat) (x : A) :
  nth_error l i = Some x ->
  nth_error (mapi_from k f l) i = Some (f x (k + i)).
Proof.
  revert k i. induction l as [| y l IH]; intros k i H.
  - destruct i; discriminate.
  - destruct i as [| i]; cbn [mapi_from nth_error] in *.
    + injection H as ->. now rewrite Nat.add_0_r.
    + rewrite (IH (1 + k) i H). f_equal. f_equal. lia.
Qed.

(** The list_workflows text is the summary line followed by one block
    per workflow, in the order the API returned them, separated by blank
    lines and numbered from 1: the block at position i carries the
    number i + 1 and the name, id, status, creation time and tags of the
    workflow at position i.  After the blocks comes nothing, or the
    full-details block. *)
Theorem handle_list_workflows_blocks
        (S : Type) (api_client : N8nApiClient S) (env : Env S)
        (args : Args) (s s1 : S) (wfs : list Workflow) :
  wfs <> [] ->
  list_workflows api_client (VObj args) s = (inr (Some wfs), s1) ->
  exists blocks suffix,
    handle_list_workflows api_client env args s
    = (inr {| content :=
                [ {| type := "text";
                     text := list_summary wfs ++ join (nl ++ nl) blocks
                             ++ suffix |} ];
              isError := None |},
       s1, [ {| ev_call := ListWorkflows (VObj args); ev_ok := true |} ])
    /\ length blocks = length wfs
    /\ (forall i wf,
          nth_error wfs i = Some wf ->
          nth_error blocks i
          = Some (string_of_nat (i + 1) ++ ". " ++ dq ++ wf_name wf ++ dq
                  ++ " (ID: " ++ wf_id wf ++ ")" ++ nl
                  ++ "   Status: "
                  ++ (if wf_active wf then "Active" else "Inactive") ++ nl
                  ++ "   Created: " ++ toLocaleString env (wf_created_at wf)
                  ++ nl
                  ++ "   Tags: " ++ tags_text (wf_tags wf)))
    /\ (suffix = ""
        \/ suffix = nl ++ nl ++ "Full details:" ++ nl
                    ++ JSON_stringify (VArr (map wf_json wfs))).
Proof.
  intros Hne H.
  exists (mapi (list_entry (toLocaleString env)) wfs).
  exists (if is_str (or_else (lookup "verbosity" args)
                             (VStr (output_verbosity (config env)))) "full"
          then full_details (VArr (map wf_json wfs)) else "").
  split; [| split; [| split]].
  - rewrite handle_list_workflows_run, H.
    destruct wfs as [| wf wfs]; [congruence |].
    rewrite format_output_cases. unfold success_response, called.
    destruct (is_str _ "full").
    + now rewrite append_assoc.
    + now rewrite append_empty_r.
  - apply mapi_from_length.
  - intros i wf Hi. unfold mapi.
    rewrite (mapi_from_nth (list_entry (toLocaleString env)) wfs 0 i Hi).
    reflexivity.
  - destruct (is_str _ "full"); [right | left]; reflexivity.
Qed.

Lemma handle_list_workflows_blocks_witness :
  exists blocks suffix,
    handle_list_workflows Demo.client (Demo.env "concise") [] Demo.store3
    = (inr {| content :=
                [ {| type := "text";
                     text := list_summary Demo.store3
                             ++ join (nl ++ nl) blocks ++ suffix |} ];
              isError := None |},
       Demo.store3,
       [ {| ev_call := ListWorkflows (VObj []); ev_ok := true |} ])
    /\ length blocks = 3
    /\ nth_error blocks 1
       = Some ("2. " ++ dq ++ "wf-b" ++ dq ++ " (ID: b)" ++ nl
               ++ "   Status: Inactive" ++ nl
               ++ "   Created: 2024-01-01T00:00:00.000Z" ++ nl
               ++ "   Tags: demo").
Proof.
  destruct (handle_list_workflows_blocks Demo.client (Demo.env "concise") []
              Demo.store3 (wfs := Demo.store3) ltac:(discriminate) eq_refl)
    as (blocks & suffix & Hrun & Hlen & Hnth & _).
  exists blocks, suffix. split; [exact Hrun |]. split; [exact Hlen |].
  apply (Hnth 1 (Demo.sample "b" false ["Set"])). reflexivity.
Defined.

(** get_workflow hands the fetched workflow to the formatter together
    with the caller's verbosity: an explicit full appends the full-details
    block with the JSON of the fetched workflow whatever the configured
    default, an explicit concise gives the summary alone whatever the
    default, and without the argument the configured default decides. *)
Theorem handle_get_workflow_verbosity
        (S : Type) (api_client : N8nApiClient S) (env : Env S)
        (args : Args) (s s1 : S) (wf : Workflow) :
  truthy (lookup "id" args) = true ->
  get_workflow api_client (lookup "id" args) s = (inr wf, s1) ->
  let summary := get_summary (toLocaleString env) (lookup "id" args) wf in
  let full :=
    summary ++ nl ++ nl ++ "Full details:" ++ nl
    ++ JSON_stringify (wf_json wf) in
  let answer text :=
    (inr {| content := [ {| type := "text"; text := text |} ];
            isError := None |},
     s1,
     [ {| ev_call := GetWorkflow (lookup "id" args); ev_ok := true |} ]) in
  (lookup "verbosity" args = VStr "full" ->
   handle_get_workflow api_client env args s = answer full)
  /\ (lookup "verbosity" args = VStr "concise" ->
      handle_get_workflow api_client env args s = answer summary)
  /\ (lookup "verbosity" args = VUndefined ->
      output_verbosity (config env) = "full" ->
      handle_get_workflow api_client env args s = answer full)
  /\ (lookup "verbosity" args = VUndefined ->
      output_verbosity (config env) <> "full" ->
      handle_get_workflow api_client env args s = answer summary).
Proof.
  intros Hid Hget. cbv zeta.
  rewrite handle_get_workflow_run, Hid, Hget. cbn [negb].
  rewrite format_output_cases. unfold success_response, called, full_details.
  repeat split.
  - intros ->. reflexivity.
  - intros ->. reflexivity.
  - intros -> ->. reflexivity.
  - intros -> Hcfg. cbn [or_else truthy is_str].
    destruct (String.eqb_spec (output_verbosity (config env)) "full");
      [contradiction | reflexivity].
Qed.

Lemma handle_get_workflow_verbosity_witness :
  text_of
    (match fst (fst (handle_get_workflow Demo.client (Demo.env "full")
                       [("id", VStr "b"); ("verbosity", VStr "concise")]
                       Demo.store3))
     with inr resp => resp | inl _ => error_response "" end)
  = get_summary (fun iso => iso) (VStr "b") (Demo.sample "b" false ["Set"])
  /\ text_of
       (match fst (fst (handle_get_workflow Demo.client (Demo.env "concise")
                          [("id", VStr "b"); ("verbosity", VStr "full")]
                          Demo.store3))
        with inr resp => resp | inl _ => error_response "" end)
     = get_summary (fun iso => iso) (VStr "b") (Demo.sample "b" false ["Set"])
       ++ nl ++ nl ++ "Full details:" ++ nl
       ++ JSON_stringify (wf_json (Demo.sample "b" false ["Set"]))
  /\ text_of
       (match fst (fst (handle_get_workflow Demo.client (Demo.env "full")
                          [("id", VStr "b")] Demo.store3))
        with inr resp => resp | inl _ => error_response "" end)
     = get_summary (fun iso => iso) (VStr "b") (Demo.sample "b" false ["Set"])
       ++ nl ++ nl ++ "Full details:" ++ nl
       ++ JSON_stringify (wf_json (Demo.sample "b" false ["Set"]))
  /\ text_of
       (match fst (fst (handle_get_workflow Demo.client (Demo.env "brief")
                          [("id", VStr "b")] Demo.store3))
        with inr resp => resp | inl _ => error_response "" end)
     = get_summary (fun iso => iso) (VStr "b") (Demo.sample "b" false ["Set"]).
Proof.
  split; [| split; [| split]].
  - destruct (handle_get_workflow_verbosity Demo.client (Demo.env "full")
                [("id", VStr "b"); ("verbosity", VStr "concise")] Demo.store3
                (wf := Demo.sample "b" false ["Set"]) eq_refl eq_refl)
      as (_ & H & _).
    rewrite (H eq_refl). reflexivity.
  - destruct (handle_get_workflow_verbosity Demo.client (Demo.env "concise")
                [("id", VStr "b"); ("verbosity", VStr "full")] Demo.store3
                (wf := Demo.sample "b" false ["Set"]) eq_refl eq_refl)
      as (H & _).
    rewrite (H eq_refl). reflexivity.
  - destruct (handle_get_workflow_verbosity Demo.client (Demo.env "full")
                [("id", VStr "b")] Demo.store3
                (wf := Demo.sample "b" false ["Set"]) eq_refl eq_refl)
      as (_ & _ & H & _).
    rewrite (H eq_refl eq_refl). reflexivity.
  - destruct (handle_get_workflow_verbosity Demo.client (Demo.env "brief")
                [("id", VStr "b")] Demo.store3
                (wf := Demo.sample "b" false ["Set"]) eq_refl eq_refl)
      as (_ & _ & _ & H).
    rewrite (H eq_refl ltac:(discriminate)). reflexivity.
Defined.

(** The last line of the get_workflow summary shows the tags: the word
    None when the workflow has no tags property or an empty tag list,
    otherwise the tag names in order, separated by a comma and a space. *)
Theorem handle_get_workflow_tags
        (S : Type) (api_client : N8nApiClient S) (env : Env S)
        (args : Args) (s s1 : S) (wf : Workflow) :
  truthy (lookup "id" args) = true ->
  get_workflow api_client (lookup "id" args) s = (inr wf, s1) ->
  exists before shown after,
    handle_get_workflow api_client env args s
    = (inr {| content :=
                [ {| type := "text";
                     text := before ++ " trigger nodes)" ++ nl ++ "Tags: "
                             ++ shown ++ after |} ];
              isError := None |},
       s1, [ {| ev_call := GetWorkflow (lookup "id" args); ev_ok := true |} ])
    /\ (wf_tags wf = None \/ wf_tags wf = Some [] -> shown = "None")
    /\ (forall ts,
          wf_tags wf = Some ts ->
          join ", " (map tag_name ts) <> "" ->
          shown = join ", " (map tag_name ts))
    /\ (after = ""
        \/ after = nl ++ nl ++ "Full details:" ++ nl
                   ++ JSON_stringify (wf_json wf)).
Proof.
  intros Hid Hget.
  exists ("Workflow: " ++ dq ++ wf_name wf ++ dq
          ++ " (ID: " ++ to_string (lookup "id" args) ++ ")" ++ nl
          ++ "Status: " ++ (if wf_active wf then "Active" else "Inactive")
          ++ nl
          ++ "Created: " ++ toLocaleString env (wf_created_at wf) ++ nl
          ++ "Updated: " ++ toLocaleString env (wf_updated_at wf) ++ nl
          ++ "Nodes: " ++ string_of_nat (length (wf_nodes wf))
          ++ " (including "
          ++ string_of_nat
               (length (filter (fun node =>
                                  includes (toLowerCase (node_type_id node))
                                           "trigger")
                               (wf_nodes wf)))).
  exists (tags_text (wf_tags wf)).
  exists (if is_str (or_else (lookup "verbosity" args)
                             (VStr (output_verbosity (config env)))) "full"
          then full_details (wf_json wf) else "").
  split; [| split; [| split]].
  - rewrite handle_get_workflow_run, Hid, Hget. cbn [negb].
    rewrite format_output_cases. unfold success_response, called, get_summary.
    destruct (is_str _ "full").
    + rewrite !append_assoc. reflexivity.
    + rewrite !append_assoc, append_empty_r. reflexivity.
  - intros [-> | ->]; reflexivity.
  - intros ts -> Hne. unfold tags_text. cbn [option_map].
    now apply str_or_some.
  - destruct (is_str _ "full"); [right | left]; reflexivity.
Qed.

Lemma handle_get_workflow_tags_witness :
  (exists before shown after,
     handle_get_workflow Demo.client (Demo.env "concise")
       [("id", VStr "1")] [Demo.store_workflow "1" Demo.good_input true]
     = (inr {| content :=
                 [ {| type := "text";
                      text := before ++ " trigger nodes)" ++ nl ++ "Tags: "
                              ++ shown ++ after |} ];
               isError := None |},
        [Demo.store_workflow "1" Demo.good_input true],
        [ {| ev_call := GetWorkflow (VStr "1"); ev_ok := true |} ])
     /\ shown = "None")
  /\ (exists before shown after,
        handle_get_workflow Demo.client (Demo.env "concise")
          [("id", VStr "a")]
          [ Demo.tagged ]
        = (inr {| content :=
                    [ {| type := "text";
                         text := before ++ " trigger nodes)" ++ nl ++ "Tags: "
                                 ++ shown ++ after |} ];
                  isError := None |},
           [ Demo.tagged ],
           [ {| ev_call := GetWorkflow (VStr "a"); ev_ok := true |} ])
        /\ shown = "prod, billing").
Proof.
  split.
  - destruct (handle_get_workflow_tags Demo.client (Demo.env "concise")
                [("id", VStr "1")]
                [Demo.store_workflow "1" Demo.good_input true]
                (wf := Demo.store_workflow "1" Demo.good_input true)
                eq_refl eq_refl)
      as (before & shown & after & Hrun & Hnone & _ & _).
    exists before, shown, after. split; [exact Hrun |].
    apply Hnone. left. reflexivity.
  - destruct (handle_get_workflow_tags Demo.client (Demo.env "concise")
                [("id", VStr "a")]
                [ Demo.tagged ]
                (wf := Demo.tagged)
                eq_refl eq_refl)
      as (before & shown & after & Hrun & _ & Hsome & _).
    exists before, shown, after. split; [exact Hrun |].
    apply (Hsome [ {| tag_name := "prod" |}; {| tag_name := "billing" |} ]
                 eq_refl).
    discriminate.
Defined.


